(** * Sales-report normaliser: a shallow embedding of [streamlit_app.py]

    The script reads one worksheet with a two-row header, renames the
    first sixteen columns by position, cleans the text, types the Date
    and the numeric columns, keeps the rows whose Gross Sales is a
    positive number and offers the result for download.

    The development follows the script top to bottom:
    - Python text primitives ([str.strip], [str.replace], slicing, join);
    - the header objects and [_flatten_columns];
    - the numeric reader behind [pd.to_numeric] and the float printer
      behind [astype(str)];
    - the delimited-date reader behind [pd.to_datetime];
    - data frames as a column list with a list of rows, and the helpers
      [_rename_by_position], [_parse_date], [_store_name_last4],
      [_coerce_numeric], [_filter_gross_sales_numeric_positive];
    - [normalize], the body of the script between the read and the
      preview;
    - the properties of the specification. *)

From Stdlib Require Import ZArith QArith String Ascii DecimalString List Bool Lia.
From stdpp Require Import base list.
Import ListNotations.

Local Open Scope string_scope.
Local Open Scope list_scope.
Local Open Scope nat_scope.

(** ** Python text *)

Module PyText.

(** [str.isspace] on the ASCII range: TAB, LF, VT, FF, CR, the four
    separators FS..US and the space. *)
Definition is_space (a : ascii) : bool :=
  let n := nat_of_ascii a in
  ((9 <=? n) && (n <=? 13)) || ((28 <=? n) && (n <=? 32)).

Fixpoint lstrip (s : string) : string :=
  match s with
  | EmptyString => EmptyString
  | String a s' => if is_space a then lstrip s' else s
  end.

Fixpoint rstrip (s : string) : string :=
  match s with
  | EmptyString => EmptyString
  | String a s' =>
      match rstrip s' with
      | EmptyString => if is_space a then EmptyString else String a EmptyString
      | r => String a r
      end
  end.

(** [s.strip()] *)
Definition strip (s : string) : string := rstrip (lstrip s).

(** [s.replace(old, new)] for a one-character [old], which is the only
    use the script makes of it ([","] by [""]). *)
Fixpoint replace_char (old : ascii) (new : string) (s : string) : string :=
  match s with
  | EmptyString => EmptyString
  | String a s' =>
      if Ascii.eqb a old then new ++ replace_char old new s'
      else String a (replace_char old new s')
  end.

(** [s[-n:]]: the slice starts at [len(s) - n], or at 0 when the text
    is shorter than [n]. *)
Definition slice_last (n : nat) (s : string) : string :=
  substring (String.length s - n) n s.

(** [sep.join(parts)] *)
Definition join (sep : string) (parts : list string) : string :=
  String.concat sep parts.

Definition is_empty (s : string) : bool :=
  match s with EmptyString => true | _ => false end.

End PyText.

(** ** Objects read from the workbook

    [read_excel(..., dtype=object)] hands back Python objects.  The
    script only ever tests them against [None] and takes their [str()],
    so an object other than [None], a blank (NaN) or a text is
    represented by the text [str()] gives for it. *)

Inductive pyobj : Type :=
| PyNone
| PyNaN
| PyStr (s : string)
| PyOther (repr : string).

Definition py_str (x : pyobj) : string :=
  match x with
  | PyNone => "None"
  | PyNaN => "nan"
  | PyStr s => s
  | PyOther r => r
  end.

Definition is_None (x : pyobj) : bool :=
  match x with PyNone => true | _ => false end.

(** A column key of the raw frame: a tuple of stacked labels when the
    header is a MultiIndex, a single object otherwise. *)
Inductive colkey : Type :=
| KTuple (labels : list pyobj)
| KScalar (label : pyobj).

(** ** [_flatten_columns] *)

(** [[str(x).strip() for x in c if x is not None and str(x).strip() != ""]] *)
Definition label_parts (labels : list pyobj) : list string :=
  map (fun x => PyText.strip (py_str x))
      (List.filter
         (fun x => negb (is_None x) && negb (PyText.is_empty (PyText.strip (py_str x))))
         labels).

(** The body of the loop: the text appended for one column. *)
Definition flatten_one (c : colkey) : string :=
  match c with
  | KTuple labels =>
      let parts := label_parts labels in
      match parts with
      | [] => ""
      | _ => PyText.join " | " parts
      end
  | KScalar x =>
      if is_None x then "" else PyText.strip (py_str x)
  end.

(** [flat = []; for c in cols: flat.append(...); return flat] *)
Definition _flatten_columns (cols : list colkey) : list string :=
  fold_left (fun flat c => flat ++ [flatten_one c]) cols [].

(** The specification's wording of the same stage: trim each label,
    discard the null and the empty ones, join what remains. *)
Definition trimmed_labels (labels : list pyobj) : list string :=
  omap (fun x => match x with
                 | PyNone => None
                 | _ => Some (PyText.strip (py_str x))
                 end) labels.

Definition flatten_spec (labels : list pyobj) : string :=
  PyText.join " | "
    (List.filter (fun s => negb (PyText.is_empty s)) (trimmed_labels labels)).

(** ** Exceptions

    The calls of the script either return or raise; a raising call is a
    value of [result] that carries the exception. *)

Inductive exn : Type :=
| ValueError_LengthMismatch (expected new : nat)
| ValueError_Unparsable (text : string)
| KeyError (key : string).

Inductive result (A : Type) : Type :=
| Ok (a : A)
| Raise (e : exn).
Arguments Ok {A} a.
Arguments Raise {A} e.

#[global] Instance result_ret : MRet result := fun A a => Ok a.
#[global] Instance result_bind : MBind result :=
  fun A B f m => match m with Ok a => f a | Raise e => Raise e end.

(** Run a raising function over a list, left to right, stopping at the
    first exception. *)
Fixpoint traverse {A B : Type} (f : A -> result B) (l : list A) : result (list B) :=
  match l with
  | [] => Ok []
  | a :: l' =>
      match f a with
      | Ok b => match traverse f l' with
                | Ok bs => Ok (b :: bs)
                | Raise e => Raise e
                end
      | Raise e => Raise e
      end
  end.

(** [errors="raise"] and [errors="coerce"] of [to_numeric] and
    [to_datetime]. *)
Inductive errors_mode : Type := ErrorsRaise | ErrorsCoerce.

(** ** Numbers

    A number read from text is the exact decimal value the text denotes,
    or an infinity.  The rounding of that value to binary64, and hence
    overflow and underflow, are not part of the model; the missing
    number (NaN) is a cell of its own, see [cell] below. *)

Inductive num : Type :=
| Fin (q : Q)
| Inf (negative : bool).

(** [x > 0] *)
Definition num_gt0 (x : num) : bool :=
  match x with
  | Fin q => (0 <? Qnum q)%Z
  | Inf negative => negb negative
  end.

(** ** The numeric reader of [pd.to_numeric]

    For a text element [to_numeric] calls the C reader [floatify]:
    optional blanks, an optional sign, digits with an optional
    fraction, at least one digit in all, an optional exponent that
    needs a digit, optional blanks, end of text; failing that, one of
    the spellings of infinity. *)

Module Floatify.

(** C [isspace] *)
Definition c_isspace (a : ascii) : bool :=
  let n := nat_of_ascii a in
  ((9 <=? n) && (n <=? 13)) || (n =? 32).

Definition is_digit (a : ascii) : bool :=
  let n := nat_of_ascii a in (48 <=? n) && (n <=? 57).

Definition digit_value (a : ascii) : Z := Z.of_nat (nat_of_ascii a) - 48.

Fixpoint skip_space (s : string) : string :=
  match s with
  | EmptyString => EmptyString
  | String a s' => if c_isspace a then skip_space s' else s
  end.

(** The longest prefix of digits, as digit values, and the rest. *)
Fixpoint span_digits (s : string) : list Z * string :=
  match s with
  | EmptyString => ([], EmptyString)
  | String a s' =>
      if is_digit a
      then let '(ds, r) := span_digits s' in (digit_value a :: ds, r)
      else ([], s)
  end.

Definition digits_to_Z (ds : list Z) : Z :=
  fold_left (fun acc d => 10 * acc + d)%Z ds 0%Z.

Definition take_sign (s : string) : bool * string :=
  match s with
  | String "-"%char r => (true, r)
  | String "+"%char r => (false, r)
  | _ => (false, s)
  end.

Definition take_fraction (s : string) : list Z * string :=
  match s with
  | String "."%char r => span_digits r
  | _ => ([], s)
  end.

(** An exponent mark followed by no digit is not consumed. *)
Definition take_exponent (s : string) : Z * string :=
  match s with
  | String c r =>
      if Ascii.eqb c "e"%char || Ascii.eqb c "E"%char then
        let '(neg, r1) := take_sign r in
        let '(ds, r2) := span_digits r1 in
        match ds with
        | [] => (0%Z, s)
        | _ => ((if neg then - digits_to_Z ds else digits_to_Z ds)%Z, r2)
        end
      else (0%Z, s)
  | EmptyString => (0%Z, s)
  end.

Definition pow10 (e : Z) : Q :=
  if (0 <=? e)%Z then inject_Z (10 ^ e) else 1 # Z.to_pos (10 ^ (- e)).

Definition decimal_value (neg : bool) (ip fp : list Z) (e : Z) : Q :=
  let m := digits_to_Z (ip ++ fp) in
  Qred (inject_Z (if neg then - m else m) * pow10 (e - Z.of_nat (length fp))).

Definition to_double (s : string) : option Q :=
  let p := skip_space s in
  let '(neg, p) := take_sign p in
  let '(ip, p) := span_digits p in
  let '(fp, p) := take_fraction p in
  match ip ++ fp with
  | [] => None
  | _ =>
      let '(e, p) := take_exponent p in
      match skip_space p with
      | EmptyString => Some (decimal_value neg ip fp e)
      | _ => None
      end
  end.

Definition lower (a : ascii) : ascii :=
  let n := nat_of_ascii a in
  if (65 <=? n) && (n <=? 90) then ascii_of_nat (n + 32) else a.

Fixpoint lowercase (s : string) : string :=
  match s with
  | EmptyString => EmptyString
  | String a s' => String (lower a) (lowercase s')
  end.

Definition one_of (names : list string) (s : string) : bool :=
  existsb (String.eqb s) names.

Definition floatify (s : string) : option num :=
  match to_double s with
  | Some q => Some (Fin q)
  | None =>
      let l := lowercase s in
      if one_of ["inf"; "+inf"; "infinity"; "+infinity"] l then Some (Inf false)
      else if one_of ["-inf"; "-infinity"] l then Some (Inf true)
      else None
  end.

End Floatify.

(** ** The float printer of [astype(str)]

    On a numeric column [astype(str)] takes the [str()] of each element.
    For a float that is the shortest text that reads back as the number:
    its digits without the zeros at either end, in positional notation
    when the first digit stands between the places of 1e-04 and 1e+16,
    with an exponent of two digits at least otherwise.  The numbers of
    the model are exact decimals, so the digits are those of the number
    itself.  An element of an int64 column prints its digits only. *)

Module Repr.

Definition digit_char (d : Z) : ascii := ascii_of_nat (48 + Z.to_nat d).

Fixpoint digits_str (ds : list Z) : string :=
  match ds with
  | [] => ""
  | d :: r => String (digit_char d) (digits_str r)
  end.

(** The decimal digits of [n] in front of [acc]; a number has no more
    decimal digits than binary ones. *)
Fixpoint digits_acc (fuel : nat) (n : Z) (acc : list Z) : list Z :=
  match fuel with
  | O => n :: acc
  | S fuel' =>
      if (n <? 10)%Z then n :: acc
      else digits_acc fuel' (n / 10)%Z ((n mod 10)%Z :: acc)
  end.

Definition digits (n : Z) : list Z := digits_acc (Z.to_nat (Z.log2 n)) n [].

(** The digits of the fraction [r / d] by long division.  The
    denominator of a number read from text divides a power of ten, and
    such a fraction ends after no more digits than the denominator has
    bits. *)
Fixpoint frac_digits (fuel : nat) (r d : Z) : list Z :=
  match fuel with
  | O => []
  | S fuel' =>
      if (r =? 0)%Z then []
      else (10 * r / d)%Z :: frac_digits fuel' (10 * r mod d)%Z d
  end.

Fixpoint drop_zeros (ds : list Z) : list Z :=
  match ds with
  | d :: r => if (d =? 0)%Z then drop_zeros r else ds
  | [] => []
  end.

Definition strip_zeros (ds : list Z) : list Z := rev (drop_zeros (rev ds)).

(** The digits of an exponent: two at least. *)
Definition exponent_digits (e : Z) : list Z :=
  if (Z.abs e <? 10)%Z then [0%Z; Z.abs e] else digits (Z.abs e).

(** The parts of the text of a float [n / d]: the digits before the
    point, the digits after it if there is a point, the sign and the
    digits of the exponent if there is one.  [decpt] is the place of
    the point: the number is [0.d1d2...] times ten to the [decpt]. *)
Definition float_parts (n d : Z)
  : list Z * option (list Z) * option (bool * list Z) :=
  let ip := digits (n / d) in
  let fp := frac_digits (Z.to_nat (Z.log2 d)) (n mod d) d in
  let nz := drop_zeros (ip ++ fp) in
  let decpt := (Z.of_nat (length ip)
                - (Z.of_nat (length (ip ++ fp)) - Z.of_nat (length nz)))%Z in
  if ((decpt <=? -4) || (16 <? decpt))%Z then
    match strip_zeros nz with
    | [] => ([], None, None)
    | d1 :: rest =>
        ([d1], match rest with [] => None | _ => Some rest end,
         Some ((decpt - 1 <? 0)%Z, exponent_digits (decpt - 1)))
    end
  else (ip, Some (match fp with [] => [0%Z] | _ => fp end), None).

Definition text (neg : bool) (ip : list Z) (fp : option (list Z))
    (ex : option (bool * list Z)) : string :=
  (if neg then "-" else "")
    ++ digits_str ip
    ++ match fp with Some f => "." ++ digits_str f | None => "" end
    ++ match ex with
       | Some (eneg, es) => "e" ++ (if eneg then "-" else "+") ++ digits_str es
       | None => ""
       end.

(** [str(x)] of an element of a numeric column; [int64] tells an
    element of an int64 column from one of a float64 column. *)
Definition number (int64 : bool) (x : num) : string :=
  match x with
  | Inf true => "-inf"
  | Inf false => "inf"
  | Fin q =>
      let n := Z.abs (Qnum q) in
      let d := Zpos (Qden q) in
      let '(ip, fp, ex) :=
        if int64 && (d =? 1)%Z then (digits n, None, None) else float_parts n d in
      text (Qnum q <? 0)%Z ip fp ex
  end.

End Repr.

(** ** Timestamps and the delimited-date reader of [pd.to_datetime] *)

Record Timestamp : Type := {
  ts_year : Z;
  ts_month : Z;
  ts_day : Z;
  ts_nanos : Z  (* nanoseconds after midnight *)
}.

Module Delimited.

Definition is_leap (y : Z) : bool :=
  ((y mod 4 =? 0) && negb (y mod 100 =? 0) || (y mod 400 =? 0))%Z.

Definition days_in_month (y m : Z) : Z :=
  if (m =? 2)%Z then (if is_leap y then 29 else 28)%Z
  else if ((m =? 4) || (m =? 6) || (m =? 9) || (m =? 11))%Z then 30%Z
  else 31%Z.

(** The range check of the [datetime] constructor. *)
Definition valid_date (y m d : Z) : bool :=
  ((1 <=? m) && (m <=? 12) && (1 <=? d) && (d <=? days_in_month y m))%Z.

(** The range of a nanosecond timestamp runs from 1677-09-21 00:12:43
    to 2262-04-11 23:47:16: a date at midnight is in it from the 22nd
    of September 1677 to the 11th of April 2262. *)
Definition in_bounds (y m d : Z) : bool :=
  let n := (y * 10000 + m * 100 + d)%Z in
  ((16770922 <=? n) && (n <=? 22620411))%Z.

Definition is_delimiter (a : ascii) : bool :=
  Ascii.eqb a "/"%char || Ascii.eqb a "-"%char.

(** The value of a run of characters that are all digits. *)
Fixpoint all_digits (l : list ascii) : option (list Z) :=
  match l with
  | [] => Some []
  | a :: l' =>
      if Floatify.is_digit a
      then match all_digits l' with
           | Some ds => Some (Floatify.digit_value a :: ds)
           | None => None
           end
      else None
  end.

Definition number (l : list ascii) : option Z :=
  match all_digits l with
  | Some ds => Some (Floatify.digits_to_Z ds)
  | None => None
  end.

(** A text of two digits, a delimiter, two digits, the same delimiter
    and four digits: the delimiter and the three numbers. *)
Definition fields (s : string) : option (ascii * Z * Z * Z) :=
  match list_ascii_of_string s with
  | [a1; a2; d1; b1; b2; d2; y1; y2; y3; y4] =>
      if is_delimiter d1 && Ascii.eqb d1 d2 then
        match number [a1; a2], number [b1; b2], number [y1; y2; y3; y4] with
        | Some a, Some b, Some y => Some (d1, a, b, y)
        | _, _, _ => None
        end
      else None
  | _ => None
  end.

(** The order of the two first fields in a format. *)
Inductive order : Type := DayFirst | MonthFirst.

(** The order guessed from the two first fields of a date: the first is
    the day when it cannot be a month, or when the second can be one
    and [dayfirst] is set. *)
Definition order_of (dayfirst : bool) (first second : Z) : order :=
  if ((12 <? first) || ((second <=? 12) && dayfirst))%Z then DayFirst else MonthFirst.

(** The date of three fields read in an order, when it is a date of the
    calendar and in the range of a timestamp. *)
Definition date_of (o : order) (first second y : Z) : option Timestamp :=
  let m := match o with DayFirst => second | MonthFirst => first end in
  let d := match o with DayFirst => first | MonthFirst => second end in
  if valid_date y m d && in_bounds y m d
  then Some {| ts_year := y; ts_month := m; ts_day := d; ts_nanos := 0 |}
  else None.

(** The format guessed from a text that is such a date: its delimiter
    and its order. *)
Definition guess (dayfirst : bool) (s : string) : option (ascii * order) :=
  match fields s with
  | Some (delim, a, b, y) =>
      let o := order_of dayfirst a b in
      match date_of o a b y with
      | Some _ => Some (delim, o)
      | None => None
      end
  | None => None
  end.

(** A text read with a format.  For a text of this layout with the
    delimiter of the format the answer is here: its date, or no date.
    For any other text it is left to the library. *)
Definition read (fmt : ascii * order) (s : string) : option (option Timestamp) :=
  match fields s with
  | Some (delim, a, b, y) =>
      if Ascii.eqb delim (fst fmt) then Some (date_of (snd fmt) a b y) else None
  | None => None
  end.

End Delimited.

(** ** Cells, series and data frames *)

(** The values a cell takes in the course of the script: the three
    missing markers ([pd.NA], the float NaN, [NaT]) and [None], a text,
    a number, a timestamp, or another object of the workbook given by
    its [str()]. *)
Inductive cell : Type :=
| NA
| NaN
| NaT
| NoneCell
| Str (s : string)
| Num (x : num)
| Date (t : Timestamp)
| Other (repr : string).

(** What the script takes from pandas without fixing it: whether a
    number stands in an int64 or in a float64 column ([to_numeric]
    gives int64 to a column of whole numbers only), how a timestamp
    prints, and what [to_datetime] makes, in a given column, of an
    element that the delimited-date reader does not decide.
    Every property below holds for every such library. *)
Record Library : Type := {
  as_int64 : num -> bool;
  timestamp_str : Timestamp -> string;
  datetime_other : bool -> list cell -> cell -> option Timestamp
}.

(** [isna] / [notna] *)
Definition isna (c : cell) : bool :=
  match c with
  | NA | NaN | NaT | NoneCell => true
  | _ => false
  end.

Definition notna (c : cell) : bool := negb (isna c).

(** [str(x)] of one element, as [Series.astype(str)] applies it to the
    elements of an object column (pandas 1 and 2; the missing markers
    print as shown). *)
Definition cell_str (L : Library) (c : cell) : string :=
  match c with
  | NA => "<NA>"
  | NaN => "nan"
  | NaT => "NaT"
  | NoneCell => "None"
  | Str s => s
  | Num x => Repr.number (as_int64 L x) x
  | Date t => timestamp_str L t
  | Other r => r
  end.

(** [x > 0] on an element of a numeric series; NaN compares false. *)
Definition cell_gt0 (c : cell) : bool :=
  match c with
  | Num x => num_gt0 x
  | _ => false
  end.

Module Series.

Definition astype_str (L : Library) (s : list cell) : list string :=
  map (cell_str L) s.

Definition str_strip (s : list string) : list string := map PyText.strip s.

Definition str_replace (old : ascii) (new : string) (s : list string) : list string :=
  map (PyText.replace_char old new) s.

Definition str_slice_last (n : nat) (s : list string) : list string :=
  map (PyText.slice_last n) s.

(** [.replace({k: pd.NA for k in keys})] on a series of texts *)
Definition replace_by_NA (keys : list string) (s : list string) : list cell :=
  map (fun x => if existsb (String.eqb x) keys then NA else Str x) s.

End Series.

Module pd.

Definition to_numeric_element (errors : errors_mode) (s : string) : result cell :=
  match Floatify.floatify s with
  | Some x => Ok (Num x)
  | None =>
      match errors with
      | ErrorsCoerce => Ok NaN
      | ErrorsRaise => Raise (ValueError_Unparsable s)
      end
  end.

(** [pd.to_numeric(series, errors=...)] on a series of texts *)
Definition to_numeric (errors : errors_mode) (s : list string) : result (list cell) :=
  traverse (to_numeric_element errors) s.

(** The first element of a column that is not missing. *)
Definition first_valid (s : list cell) : option cell :=
  List.find (fun c => negb (isna c)) s.

(** [to_datetime] (pandas 2) guesses one format from the first element
    that is not missing and reads the whole column with it. *)
Definition column_format (dayfirst : bool) (s : list cell)
    : option (ascii * Delimited.order) :=
  match first_valid s with
  | Some (Str t) => Delimited.guess dayfirst t
  | _ => None
  end.

(** What one element of a column parses to, if it does. *)
Definition read_datetime (L : Library) (dayfirst : bool) (col : list cell) (c : cell)
    : option Timestamp :=
  match c with
  | Date t => Some t
  | Str s =>
      match column_format dayfirst col with
      | Some fmt =>
          match Delimited.read fmt s with
          | Some r => r
          | None => datetime_other L dayfirst col c
          end
      | None => datetime_other L dayfirst col c
      end
  | _ => datetime_other L dayfirst col c
  end.

Definition to_datetime_element (L : Library) (errors : errors_mode) (dayfirst : bool)
    (col : list cell) (c : cell) : result cell :=
  if isna c then Ok NaT
  else match read_datetime L dayfirst col c with
       | Some t => Ok (Date t)
       | None =>
           match errors with
           | ErrorsCoerce => Ok NaT
           | ErrorsRaise => Raise (ValueError_Unparsable (cell_str L c))
           end
       end.

(** [pd.to_datetime(series, errors=..., dayfirst=...)] *)
Definition to_datetime (L : Library) (errors : errors_mode) (dayfirst : bool)
    (s : list cell) : result (list cell) :=
  traverse (to_datetime_element L errors dayfirst s) s.

End pd.

(** A frame is its column index and its rows; the row index is the
    position in the list, so [reset_index(drop=True)] changes nothing. *)
Record DataFrame (K : Type) : Type := {
  columns : list K;
  rows : list (list cell)
}.
Arguments columns {K} d.
Arguments rows {K} d.

Module Frame.

(** Position of the first column called [c]. *)
Fixpoint get_loc (c : string) (cols : list string) : option nat :=
  match cols with
  | [] => None
  | k :: cols' =>
      if String.eqb k c then Some 0
      else match get_loc c cols' with
           | Some i => Some (S i)
           | None => None
           end
  end.

(** [df[c]].  A frame is rectangular; should a row of the model be
    too short, the cell reads as NaN. *)
Definition getitem (df : DataFrame string) (c : string) : result (list cell) :=
  match get_loc c (columns df) with
  | Some i => Ok (map (fun r => default NaN (r !! i)) (rows df))
  | None => Raise (KeyError c)
  end.

(** [df[c] = values]: overwrite the column, or append it when [c] is
    new; the values must be as many as the rows. *)
Definition setitem (df : DataFrame string) (c : string) (values : list cell)
    : result (DataFrame string) :=
  if negb (length values =? length (rows df))
  then Raise (ValueError_LengthMismatch (length (rows df)) (length values))
  else match get_loc c (columns df) with
       | Some i =>
           Ok {| columns := columns df;
                 rows := zip_with (fun v r => <[i := v]> r) values (rows df) |}
       | None =>
           Ok {| columns := columns df ++ [c];
                 rows := zip_with (fun v r => r ++ [v]) values (rows df) |}
       end.

(** [df.iloc[:, :n]] *)
Definition iloc_cols {K} (n : nat) (df : DataFrame K) : DataFrame K :=
  {| columns := take n (columns df); rows := map (take n) (rows df) |}.

(** [df.columns = new] *)
Definition set_columns {K K'} (df : DataFrame K) (new : list K') : result (DataFrame K') :=
  if length new =? length (columns df)
  then Ok {| columns := new; rows := rows df |}
  else Raise (ValueError_LengthMismatch (length (columns df)) (length new)).

(** [df.dropna(how="all")] *)
Definition dropna_all {K} (df : DataFrame K) : DataFrame K :=
  {| columns := columns df;
     rows := List.filter (fun r => negb (forallb isna r)) (rows df) |}.

(** [df.reset_index(drop=True)] *)
Definition reset_index {K} (df : DataFrame K) : DataFrame K := df.

(** [df[mask]] for a boolean series *)
Fixpoint select {A} (mask : list bool) (l : list A) : list A :=
  match mask, l with
  | b :: mask', x :: l' => if b then x :: select mask' l' else select mask' l'
  | _, _ => []
  end.

Definition getitem_mask {K} (df : DataFrame K) (mask : list bool) : DataFrame K :=
  {| columns := columns df; rows := select mask (rows df) |}.

End Frame.

(** A loop whose body may raise. *)
Fixpoint for_each {A S : Type} (body : S -> A -> result S) (l : list A) (s : S) : result S :=
  match l with
  | [] => Ok s
  | a :: l' =>
      match body s a with
      | Ok s' => for_each body l' s'
      | Raise e => Raise e
      end
  end.

(** ** The constants of the script *)

Definition FINAL_COLS : list string :=
  [ "Row No."; "Store Code"; "Store Name"; "Date"; "Gross Sales"; "Net Sales";
    "Discounted"; "Item Void"; "Void Value"; "Item Refund"; "Refund Value";
    "Terminal"; "Unnamed"; "Quantity"; "Transaction"; "Average Transaction Value" ].

Definition HEADER_ROWS : list nat := [3; 4].

(** A Python set; only membership is asked of it. *)
Definition NUMERIC_COLS : list string :=
  [ "Gross Sales"; "Net Sales"; "Discounted"; "Item Void"; "Void Value";
    "Item Refund"; "Refund Value"; "Quantity"; "Transaction";
    "Average Transaction Value" ].

Definition set_mem (c : string) (s : list string) : bool := existsb (String.eqb c) s.

(** [set(FINAL_COLS) - NUMERIC_COLS] *)
Definition NON_NUMERIC_COLS : list string :=
  List.filter (fun c => negb (set_mem c NUMERIC_COLS)) FINAL_COLS.

(** ** The helpers of the script *)

Definition _coerce_numeric (L : Library) (df : DataFrame string) (cols : list string)
    : result (DataFrame string) :=
  for_each
    (fun df c =>
       if set_mem c (columns df) then
         s ← Frame.getitem df c;
         v ← pd.to_numeric ErrorsCoerce
               (Series.str_replace ","%char "" (Series.astype_str L s));
         Frame.setitem df c v
       else Ok df)
    cols df.

Definition _parse_date (L : Library) (series : list cell) : result (list cell) :=
  pd.to_datetime L ErrorsCoerce true series.

Definition _rename_by_position {K} (df : DataFrame K) (final_cols : list string)
    : result (DataFrame string) :=
  let n := length final_cols in
  let df := Frame.iloc_cols n df in
  Frame.set_columns df final_cols.

Definition _store_name_last4 (L : Library) (series : list cell) : list cell :=
  map Str (Series.str_slice_last 4 (Series.astype_str L series)).

Definition _filter_gross_sales_numeric_positive (L : Library) (df : DataFrame string)
    : result (DataFrame string) :=
  s ← Frame.getitem df "Gross Sales";
  v ← pd.to_numeric ErrorsCoerce
        (Series.str_replace ","%char "" (Series.astype_str L s));
  df ← Frame.setitem df "Gross Sales" v;
  g ← Frame.getitem df "Gross Sales";
  Ok (Frame.getitem_mask df (zip_with andb (map notna g) (map cell_gt0 g))).

(** ** The body of the script *)

(** Lines 130-132.  Every column was read with [dtype=object], so the
    test on the dtype holds for each of them. *)
Definition clean_strings (L : Library) (df : DataFrame string) : result (DataFrame string) :=
  for_each
    (fun df c =>
       s ← Frame.getitem df c;
       Frame.setitem df c
         (Series.replace_by_NA [""; "nan"; "None"]
            (Series.str_strip (Series.astype_str L s))))
    (columns df) df.

(** Lines 126-138: from the raw frame to the frame with its Date parsed. *)
Definition before_truncation (L : Library) (df_raw : DataFrame colkey)
    : result (DataFrame string) :=
  df_raw ← Frame.set_columns df_raw (_flatten_columns (columns df_raw));
  df ← _rename_by_position df_raw FINAL_COLS;
  df ← clean_strings L df;
  let df := Frame.reset_index (Frame.dropna_all df) in
  s ← Frame.getitem df "Date";
  d ← _parse_date L s;
  Frame.setitem df "Date" d.

(** Lines 140-150: truncation, coercion, filter and final sweep. *)
Definition after_truncation (L : Library) (df : DataFrame string)
    : result (DataFrame string) :=
  s ← Frame.getitem df "Store Name";
  df ← Frame.setitem df "Store Name" (_store_name_last4 L s);
  df ← _coerce_numeric L df (List.filter (fun c => set_mem c NUMERIC_COLS) FINAL_COLS);
  df ← _filter_gross_sales_numeric_positive L df;
  Ok (Frame.reset_index (Frame.dropna_all df)).

Definition normalize (L : Library) (df_raw : DataFrame colkey) : result (DataFrame string) :=
  df ← before_truncation L df_raw;
  after_truncation L df.

(** ** Reading the result row by row

    The field of a row under a column name, and what each stage does to
    one cell; the proofs reduce the column-wise script to these. *)

Definition field (df : DataFrame string) (r : list cell) (c : string) : option cell :=
  match Frame.get_loc c (columns df) with
  | Some i => r !! i
  | None => None
  end.

(** Lines 130-132 on one cell. *)
Definition clean_cell (L : Library) (c : cell) : cell :=
  let s := PyText.strip (cell_str L c) in
  if existsb (String.eqb s) [""; "nan"; "None"] then NA else Str s.

(** [_parse_date] on one cell of a column. *)
Definition parse_date_cell (L : Library) (col : list cell) (c : cell) : cell :=
  if isna c then NaT
  else match pd.read_datetime L true col c with
       | Some t => Date t
       | None => NaT
       end.

(** [_store_name_last4] on one cell. *)
Definition last4_cell (L : Library) (c : cell) : cell :=
  Str (PyText.slice_last 4 (cell_str L c)).

(** The coercion of [_coerce_numeric] on one cell. *)
Definition coerce_cell (L : Library) (c : cell) : cell :=
  match Floatify.floatify (PyText.replace_char ","%char "" (cell_str L c)) with
  | Some x => Num x
  | None => NaN
  end.

(** Positions of a list of column names in a column index. *)
Definition positions (cols names : list string) : list nat :=
  omap (fun c => Frame.get_loc c cols) names.

Definition alter_all (f : cell -> cell) (idxs : list nat) (r : list cell) : list cell :=
  fold_left (fun r i => alter f i r) idxs r.

(** Lines 140-147 on one row: truncation, coercion of the ten numeric
    fields, second coercion of Gross Sales. *)
Definition typed_row (L : Library) (r : list cell) : list cell :=
  alter (coerce_cell L) 4
    (alter_all (coerce_cell L) [4; 5; 6; 7; 8; 9; 10; 13; 14; 15]
       (alter (last4_cell L) 2 r)).

(** The test of the filter on one row. *)
Definition gross_ok (r : list cell) : bool :=
  let g := default NaN (r !! 4) in notna g && cell_gt0 g.

Definition all_missing (r : list cell) : bool := forallb isna r.

(** Lines 126-138 on the rows: the first sixteen cells, cleaned; the
    rows left with a value; the Date parsed. *)
Definition cleaned_rows (L : Library) (rs : list (list cell)) : list (list cell) :=
  List.filter (fun r => negb (all_missing r))
    (map (fun r => map (clean_cell L) (take 16 r)) rs).

(** The Date column of a list of rows, as [df["Date"]] hands it to
    [_parse_date]. *)
Definition date_column (rs : list (list cell)) : list cell :=
  map (fun r => default NaN (r !! 3)) rs.

Definition rows_before (L : Library) (rs : list (list cell)) : list (list cell) :=
  map (alter (parse_date_cell L (date_column (cleaned_rows L rs))) 3)
    (cleaned_rows L rs).

(** Lines 140-150 on the rows. *)
Definition rows_after (L : Library) (rs : list (list cell)) : list (list cell) :=
  List.filter (fun r => negb (all_missing r))
    (List.filter gross_ok (map (typed_row L) rs)).

(** ** A library instance and sample sheets, to run the script *)

Module Sample.

Definition digits (n : N) : string :=
  DecimalString.NilZero.string_of_uint (N.to_uint n).

Definition pad2 (z : Z) : string :=
  (if (z <? 10)%Z then "0" else "") ++ digits (Z.to_N z).

Definition show_timestamp (t : Timestamp) : string :=
  digits (Z.to_N (ts_year t)) ++ "-" ++ pad2 (ts_month t) ++ "-" ++ pad2 (ts_day t).

Definition library : Library :=
  {| as_int64 := fun _ => false;
     timestamp_str := show_timestamp;
     datetime_other := fun _ _ _ => None |}.

(** A two-row header: sixteen stacked labels, and two columns more. *)
Definition header (n : nat) : list colkey :=
  KTuple [PyStr "Store | Code"; PyStr "Info"]
    :: repeat (KTuple [PyStr " Sales "; PyNone]) (n - 1).

Definition data_row (store date gross : cell) : list cell :=
  [ Other "1"; Str "S01"; store; date; gross; Str "10"; NaN; NaN; NaN; NaN; NaN;
    Str "T1"; NaN; Other "3"; Other "2"; Str "x"; Str "extra"; NaN ].

Definition blank_row : list cell := repeat NaN 18.

(** Scenario A of the specification, with a blank row and a row whose
    Gross Sales is no number. *)
Definition sheet : DataFrame colkey :=
  {| columns := header 18;
     rows := [ data_row (Str "SHOP-001") (Str "05/03/2024") (Str "15");
               data_row (Str " AB ") (Str "31/02/2024") (Str "1,200.50");
               data_row NaN (Str "03/25/2024") (Str "0");
               blank_row;
               data_row (Str "SHOP-002") (Str "1/2/2024") (Str "abc");
               data_row NaN NaN (Other "7.25") ] |}.

(** A sheet with ten columns only. *)
Definition short_sheet : DataFrame colkey :=
  {| columns := header 10;
     rows := [ take 10 (data_row (Str "SHOP-001") (Str "05/03/2024") (Str "15")) ] |}.

(** What the script returns for [sheet]: the rows with Gross Sales 15,
    1,200.50 and 7.25. *)
Definition out_row (store date gross : cell) : list cell :=
  [ Str "1"; Str "S01"; store; date; gross; Num (Fin (10 # 1)); NaN; NaN; NaN;
    NaN; NaN; Str "T1"; NA; Num (Fin (3 # 1)); Num (Fin (2 # 1)); NaN ].

Definition march_5 : Timestamp :=
  {| ts_year := 2024; ts_month := 3; ts_day := 5; ts_nanos := 0 |}.

Definition output : DataFrame string :=
  {| columns := FINAL_COLS;
     rows := [ out_row (Str "-001") (Date march_5) (Num (Fin (15 # 1)));
               out_row (Str "AB") NaT (Num (Fin (2401 # 2)));
               out_row (Str "<NA>") NaT (Num (Fin (29 # 4))) ] |}.

End Sample.

(** ** Further readings and samples *)

(** Lines 126-147 on one row of the sheet, for the Date column [col]
    the row stands in: the first sixteen cells cleaned, the Date parsed
    as an element of [col], the row typed. *)
Definition row_of (L : Library) (col : list cell) (raw : list cell) : list cell :=
  typed_row L (alter (parse_date_cell L col) 3 (map (clean_cell L) (take 16 raw))).

(** The test of the filter on one row, for a Gross Sales column in
    place [i]. *)
Definition positive_at (i : nat) (r : list cell) : bool :=
  match r !! i with
  | Some (Num x) => num_gt0 x
  | _ => false
  end.

(** A flattened header, read back as the column index it is. *)
Definition flat_index (labels : list string) : list colkey :=
  map (fun s => KScalar (PyStr s)) labels.

(** A small frame with a Gross Sales column, and one without. *)
Definition ledger : DataFrame string :=
  {| columns := ["Store Code"; "Gross Sales"; "Net Sales"];
     rows := [ [Str "S01"; Str "1,200.50"; Str "x"];
               [Str "S02"; Str "abc"; Str "3"];
               [Str "S03"; Str "-4"; NA];
               [Str "S04"; Str "7"; Str "1,0"] ] |}.

Definition ledger_without_gross : DataFrame string :=
  {| columns := ["Store Code"; "Net Sales"];
     rows := [ [Str "S01"; Str "3"] ] |}.

(** * Properties *)

(** ** Text *)

Lemma substring_whole (s : string) (n : nat) :
  String.length s <= n -> substring 0 n s = s.
Proof.
  revert n. induction s as [|a s IH]; intros n Hn.
  - destruct n; reflexivity.
  - destruct n as [|n]; simpl in *; [lia|].
    rewrite IH by lia. reflexivity.
Qed.

Lemma substring_tail (s : string) (k : nat) :
  k <= String.length s ->
  exists p, String.length p = k /\ s = (p ++ substring k (String.length s - k) s)%string.
Proof.
  revert s. induction k as [|k IH]; intros s Hk.
  - exists "". split; [reflexivity|]. simpl.
    rewrite Nat.sub_0_r, substring_whole; auto.
  - destruct s as [|a s]; simpl in Hk; [lia|].
    destruct (IH s) as (p & Hp & Hs); [lia|].
    exists (String a p). split; [simpl; lia|].
    simpl. f_equal. exact Hs.
Qed.

Lemma append_length (s t : string) :
  String.length (s ++ t)%string = String.length s + String.length t.
Proof. induction s; simpl; auto. Qed.

(** [s[-n:]] is a suffix of [s], of [n] characters when [s] has as
    many, and all of [s] otherwise. *)
Lemma slice_last_suffix (n : nat) (s : string) :
  exists p, s = (p ++ PyText.slice_last n s)%string
            /\ String.length (PyText.slice_last n s) = Nat.min n (String.length s).
Proof.
  unfold PyText.slice_last.
  destruct (le_lt_dec (String.length s) n) as [Hle|Hlt].
  - replace (String.length s - n) with 0 by lia.
    rewrite substring_whole by lia. exists "". split; [reflexivity|lia].
  - destruct (substring_tail s (String.length s - n)) as (p & Hp & Hs); [lia|].
    replace (String.length s - (String.length s - n)) with n in Hs by lia.
    exists p. split; [exact Hs|].
    apply (f_equal String.length) in Hs. rewrite append_length in Hs. lia.
Qed.

Lemma slice_last_short (n : nat) (s : string) :
  String.length s <= n -> PyText.slice_last n s = s.
Proof.
  intros H. unfold PyText.slice_last.
  replace (String.length s - n) with 0 by lia.
  apply substring_whole, H.
Qed.

Lemma is_empty_true (s : string) : PyText.is_empty s = true <-> s = "".
Proof. destruct s; simpl; split; congruence. Qed.

(** ** Header flattening *)

Lemma fold_append_map {A B} (f : A -> B) (l : list A) (acc : list B) :
  fold_left (fun flat c => flat ++ [f c]) l acc = acc ++ map f l.
Proof.
  revert acc. induction l as [|a l IH]; intros acc; simpl.
  - now rewrite app_nil_r.
  - rewrite IH, <- app_assoc. reflexivity.
Qed.

Lemma flatten_columns_map (cols : list colkey) :
  _flatten_columns cols = map flatten_one cols.
Proof. unfold _flatten_columns. now rewrite fold_append_map. Qed.

Lemma flatten_columns_length (cols : list colkey) :
  length (_flatten_columns cols) = length cols.
Proof. rewrite flatten_columns_map. apply length_map. Qed.

(** Filtering before the trim, as the code does, or after it, as the
    specification says, keeps the same parts. *)
Lemma label_parts_spec (labels : list pyobj) :
  label_parts labels
  = List.filter (fun s => negb (PyText.is_empty s)) (trimmed_labels labels).
Proof.
  unfold label_parts, trimmed_labels.
  induction labels as [|x labels IH]; [reflexivity|].
  cbn [List.filter omap list_omap]. destruct x; cbn [is_None negb andb];
    try (destruct (PyText.is_empty _) eqn:E; cbn [negb map List.filter];
         rewrite ?E; cbn [negb]; rewrite IH; reflexivity).
  exact IH.
Qed.

Lemma flatten_tuple_spec (labels : list pyobj) :
  flatten_one (KTuple labels) = flatten_spec labels.
Proof.
  unfold flatten_one, flatten_spec. rewrite label_parts_spec.
  destruct (List.filter _ _); reflexivity.
Qed.

Lemma label_parts_all_empty (labels : list pyobj) :
  Forall (fun x => x = PyNone \/ PyText.strip (py_str x) = "") labels ->
  label_parts labels = [].
Proof.
  unfold label_parts. induction 1 as [|x l Hx _ IH]; [reflexivity|].
  cbn [List.filter]. destruct Hx as [->|Hx].
  - exact IH.
  - rewrite Hx. cbn. rewrite andb_false_r. exact IH.
Qed.

(** C9.  Flattening returns one text per column, in the order of the
    columns: for a column with stacked labels, the labels that are not
    null, trimmed, without the empty ones, joined by [" | "]; for a
    column whose labels are all null or empty, the empty text.  It is a
    total function, so it never fails. *)
Theorem flatten_columns_correct (cols : list colkey) :
  length (_flatten_columns cols) = length cols
  /\ (forall i labels, cols !! i = Some (KTuple labels) ->
        _flatten_columns cols !! i = Some (flatten_spec labels))
  /\ (forall i x, cols !! i = Some (KScalar x) ->
        _flatten_columns cols !! i
        = Some (if is_None x then "" else PyText.strip (py_str x)))
  /\ (forall i labels, cols !! i = Some (KTuple labels) ->
        Forall (fun x => x = PyNone \/ PyText.strip (py_str x) = "") labels ->
        _flatten_columns cols !! i = Some "").
Proof.
  split; [apply flatten_columns_length|].
  rewrite flatten_columns_map. repeat split.
  - intros i labels H. rewrite list_lookup_fmap, H.
    change (Some (flatten_one (KTuple labels)) = Some (flatten_spec labels)).
    now rewrite flatten_tuple_spec.
  - intros i x H. rewrite list_lookup_fmap, H. reflexivity.
  - intros i labels H Hall. rewrite list_lookup_fmap, H.
    change (Some (flatten_one (KTuple labels)) = Some "").
    unfold flatten_one. now rewrite (label_parts_all_empty _ Hall).
Qed.

(** The header of scenario A. *)
Example flatten_scenario_A :
  _flatten_columns
    [ KTuple [PyStr "Store | Code"; PyStr "Info"];
      KTuple [PyStr "  Gross "; PyNone];
      KTuple [PyNone; PyStr "   "];
      KScalar PyNone ]
  = ["Store | Code | Info"; "Gross"; ""; ""].
Proof. reflexivity. Qed.

(** ** Series and frames *)

Lemma traverse_total {A B} (f : A -> result B) (g : A -> B) (l : list A) :
  (forall a, f a = Ok (g a)) -> traverse f l = Ok (map g l).
Proof.
  intros H. induction l as [|a l IH]; simpl; [reflexivity|].
  now rewrite H, IH.
Qed.

(** With [errors="coerce"] the numeric conversion of a column returns,
    cell by cell. *)
Lemma to_numeric_coerce (L : Library) (s : list cell) :
  pd.to_numeric ErrorsCoerce (Series.str_replace ","%char "" (Series.astype_str L s))
  = Ok (map (coerce_cell L) s).
Proof.
  unfold pd.to_numeric, Series.str_replace, Series.astype_str.
  rewrite (traverse_total _
             (fun t => match Floatify.floatify t with Some x => Num x | None => NaN end)).
  - now rewrite !map_map.
  - intros t. unfold pd.to_numeric_element. now destruct (Floatify.floatify t).
Qed.

(** With [errors="coerce"] the date conversion of a column returns,
    cell by cell. *)
Lemma parse_date_total (L : Library) (s : list cell) :
  _parse_date L s = Ok (map (parse_date_cell L s) s).
Proof.
  unfold _parse_date, pd.to_datetime. apply traverse_total.
  intros c. unfold pd.to_datetime_element, parse_date_cell.
  destruct (isna c); [reflexivity|].
  now destruct (pd.read_datetime L true s c).
Qed.

Lemma clean_series (L : Library) (s : list cell) :
  Series.replace_by_NA [""; "nan"; "None"] (Series.str_strip (Series.astype_str L s))
  = map (clean_cell L) s.
Proof.
  unfold Series.replace_by_NA, Series.str_strip, Series.astype_str.
  now rewrite !map_map.
Qed.

Lemma store_name_series (L : Library) (s : list cell) :
  _store_name_last4 L s = map (last4_cell L) s.
Proof.
  unfold _store_name_last4, Series.str_slice_last, Series.astype_str.
  now rewrite !map_map.
Qed.

Lemma insert_default_alter (g : cell -> cell) (i : nat) (r : list cell) :
  <[i := g (default NaN (r !! i))]> r = alter g i r.
Proof.
  revert i. induction r as [|a r IH]; intros [|i]; simpl; try reflexivity.
  f_equal. apply IH.
Qed.

Lemma zip_with_map_same {A B C} (f : B -> A -> C) (h : A -> B) (l : list A) :
  zip_with f (map h l) l = map (fun a => f (h a) a) l.
Proof. induction l as [|a l IH]; simpl; [reflexivity|]. now rewrite IH. Qed.

(** [df[c] = g(df[c])] for a column in place [i] and an element-wise
    [g] alters place [i] of every row. *)
Lemma assign_column (df : DataFrame string) (c : string) (i : nat) (g : cell -> cell) :
  Frame.get_loc c (columns df) = Some i ->
  Frame.getitem df c = Ok (map (fun r => default NaN (r !! i)) (rows df))
  /\ Frame.setitem df c (map g (map (fun r => default NaN (r !! i)) (rows df)))
     = Ok {| columns := columns df; rows := map (alter g i) (rows df) |}.
Proof.
  intros Hloc. unfold Frame.getitem, Frame.setitem. rewrite Hloc.
  split; [reflexivity|].
  rewrite !length_map, Nat.eqb_refl. cbn [negb].
  rewrite map_map, zip_with_map_same. do 2 f_equal.
  apply map_ext. intros r. apply insert_default_alter.
Qed.

Lemma get_loc_set_mem (c : string) (cols : list string) (i : nat) :
  Frame.get_loc c cols = Some i -> set_mem c cols = true.
Proof.
  revert i. induction cols as [|k cols IH]; intros i; simpl; [discriminate|].
  rewrite (String.eqb_sym c k).
  destruct (String.eqb k c); [reflexivity|].
  destruct (Frame.get_loc c cols); [|discriminate]. intros _. simpl. eauto.
Qed.

(** A loop of column assignments alters, in every row, the places of
    the columns it names. *)
Lemma for_each_assign (g : cell -> cell)
    (body : DataFrame string -> string -> result (DataFrame string)) :
  (forall df c i, Frame.get_loc c (columns df) = Some i ->
     body df c = Ok {| columns := columns df; rows := map (alter g i) (rows df) |}) ->
  forall names df,
    Forall (fun c => is_Some (Frame.get_loc c (columns df))) names ->
    for_each body names df
    = Ok {| columns := columns df;
            rows := map (alter_all g (positions (columns df) names)) (rows df) |}.
Proof.
  intros Hbody names. induction names as [|c names IH]; intros df Hall.
  - simpl. destruct df as [cs rs]. cbn. f_equal. f_equal.
    unfold alter_all. cbn. now rewrite map_id.
  - inversion Hall as [|? ? [i Hi] Hrest]; subst.
    cbn [for_each]. rewrite (Hbody df c i Hi).
    rewrite IH by exact Hrest. cbn [columns rows].
    unfold positions. cbn [omap list_omap]. rewrite Hi.
    rewrite map_map. reflexivity.
Qed.

Lemma coerce_numeric_rows (L : Library) (df : DataFrame string) (names : list string) :
  Forall (fun c => is_Some (Frame.get_loc c (columns df))) names ->
  _coerce_numeric L df names
  = Ok {| columns := columns df;
          rows := map (alter_all (coerce_cell L) (positions (columns df) names)) (rows df) |}.
Proof.
  apply for_each_assign. intros d c i Hi.
  rewrite (get_loc_set_mem _ _ _ Hi).
  destruct (assign_column d c i (coerce_cell L) Hi) as [Hget Hset].
  rewrite Hget. cbn. rewrite to_numeric_coerce. cbn. exact Hset.
Qed.

Lemma clean_strings_rows (L : Library) (df : DataFrame string) :
  clean_strings L df
  = Ok {| columns := columns df;
          rows := map (alter_all (clean_cell L) (positions (columns df) (columns df)))
                      (rows df) |}.
Proof.
  unfold clean_strings.
  assert (Hall : forall cols names,
             (forall c, In c names -> In c cols) ->
             Forall (fun c => is_Some (Frame.get_loc c cols)) names).
  { intros cols names Hsub. apply List.Forall_forall. intros c Hc.
    apply Hsub in Hc. clear Hsub. induction cols as [|k cols IH]; [destruct Hc|].
    simpl. destruct (String.eqb k c) eqn:E; [eauto|].
    destruct Hc as [->|Hc]; [rewrite String.eqb_refl in E; discriminate|].
    destruct (IH Hc) as [i ->]. eauto. }
  apply (for_each_assign (clean_cell L)); [|apply Hall; auto].
  intros d c i Hi.
  destruct (assign_column d c i (clean_cell L) Hi) as [Hget Hset].
  rewrite Hget. cbn. rewrite clean_series. exact Hset.
Qed.

Lemma alter_out_of_range (f : cell -> cell) (i : nat) (r : list cell) :
  length r <= i -> alter f i r = r.
Proof.
  revert i. induction r as [|a r IH]; intros [|i] H; simpl in *;
    try reflexivity; try lia.
  f_equal. apply IH. lia.
Qed.

Lemma alter_all_out_of_range (f : cell -> cell) (idxs : list nat) (r : list cell) :
  Forall (fun i => length r <= i) idxs -> alter_all f idxs r = r.
Proof.
  unfold alter_all. induction 1 as [|i idxs Hi _ IH]; simpl; [reflexivity|].
  rewrite alter_out_of_range by exact Hi. exact IH.
Qed.

Lemma alter_all_seq_app (f : cell -> cell) (n : nat) :
  forall (pre r : list cell),
    length r <= n ->
    alter_all f (seq (length pre) n) (pre ++ r) = pre ++ map f r.
Proof.
  induction n as [|n IH]; intros pre r Hr.
  - destruct r; simpl in Hr; [reflexivity|lia].
  - destruct r as [|a r].
    + cbn [map]. rewrite app_nil_r. apply alter_all_out_of_range.
      apply List.Forall_forall. intros i Hi. apply in_seq in Hi. lia.
    + cbn [seq]. unfold alter_all. cbn [fold_left].
      rewrite alter_app_r_alt by lia. rewrite Nat.sub_diag. cbn [alter list_alter].
      change (pre ++ f a :: r) with (pre ++ [f a] ++ r).
      rewrite app_assoc.
      replace (S (length pre)) with (length (pre ++ [f a]))
        by (rewrite length_app; simpl; lia).
      fold (alter_all f (seq (length (pre ++ [f a])) n) ((pre ++ [f a]) ++ r)).
      rewrite IH by (simpl in Hr; lia).
      rewrite <- app_assoc. reflexivity.
Qed.

(** Altering every place of a row is mapping over it. *)
Lemma alter_all_seq (f : cell -> cell) (n : nat) (r : list cell) :
  length r <= n -> alter_all f (seq 0 n) r = map f r.
Proof. intros H. apply (alter_all_seq_app f n [] r H). Qed.

(** A mask computed from the rows selects the rows that pass the test. *)
Lemma select_map_filter {A} (p : A -> bool) (l : list A) :
  Frame.select (map p l) l = List.filter p l.
Proof.
  induction l as [|a l IH]; simpl; [reflexivity|].
  rewrite IH. reflexivity.
Qed.

Lemma gross_mask (g : list (list cell)) :
  zip_with andb (map notna (map (fun r => default NaN (r !! 4)) g))
                (map cell_gt0 (map (fun r => default NaN (r !! 4)) g))
  = map gross_ok g.
Proof.
  induction g as [|r g IH]; simpl; [reflexivity|]. now rewrite IH.
Qed.

(** ** The script, row by row *)

Lemma before_truncation_rows (L : Library) (df : DataFrame colkey) :
  16 <= length (columns df) ->
  before_truncation L df
  = Ok {| columns := FINAL_COLS; rows := rows_before L (rows df) |}.
Proof.
  intros Hn. unfold before_truncation, Frame.set_columns.
  rewrite flatten_columns_length, Nat.eqb_refl. cbn [mbind result_bind].
  unfold _rename_by_position, Frame.set_columns, Frame.iloc_cols. cbn [columns rows].
  rewrite length_take, flatten_columns_length.
  replace (length FINAL_COLS `min` length (columns df)) with 16
    by (change (length FINAL_COLS) with 16; lia).
  change (length FINAL_COLS =? 16) with true. cbn [mbind result_bind].
  rewrite clean_strings_rows. cbn [mbind result_bind columns rows].
  change (positions FINAL_COLS FINAL_COLS) with (seq 0 16).
  unfold Frame.reset_index, Frame.dropna_all. cbn [columns rows].
  assert (Hrows : List.filter (fun r => negb (forallb isna r))
                    (map (alter_all (clean_cell L) (seq 0 16))
                       (map (take (length FINAL_COLS)) (rows df)))
                  = cleaned_rows L (rows df)).
  { unfold cleaned_rows, all_missing. f_equal.
    rewrite map_map. apply map_ext_in. intros r _.
    apply alter_all_seq. rewrite length_take. lia. }
  rewrite Hrows.
  set (d := {| columns := FINAL_COLS; rows := _ |}).
  destruct (assign_column d "Date" 3
              (parse_date_cell L (date_column (cleaned_rows L (rows df)))) eq_refl)
    as [Hget Hset].
  rewrite Hget. cbn [mbind result_bind]. rewrite parse_date_total.
  cbn [mbind result_bind]. exact Hset.
Qed.

Lemma after_truncation_rows (L : Library) (df : DataFrame string) :
  columns df = FINAL_COLS ->
  after_truncation L df
  = Ok {| columns := FINAL_COLS; rows := rows_after L (rows df) |}.
Proof.
  intros Hc. unfold after_truncation.
  destruct (assign_column df "Store Name" 2 (last4_cell L)) as [Hget Hset];
    [now rewrite Hc|].
  rewrite Hget. cbn [mbind result_bind]. rewrite store_name_series, Hset.
  cbn [mbind result_bind].
  rewrite coerce_numeric_rows; cbn [columns rows]; rewrite Hc.
  2:{ apply List.Forall_forall. intros c Hin.
      apply filter_In in Hin. destruct Hin as [Hin _].
      repeat (destruct Hin as [<-|Hin]; [eexists; reflexivity|]). destruct Hin. }
  change (positions FINAL_COLS
            (List.filter (fun c => set_mem c NUMERIC_COLS) FINAL_COLS))
    with [4; 5; 6; 7; 8; 9; 10; 13; 14; 15].
  cbn [mbind result_bind]. unfold _filter_gross_sales_numeric_positive.
  set (d := {| columns := FINAL_COLS; rows := _ |}).
  destruct (assign_column d "Gross Sales" 4 (coerce_cell L) eq_refl) as [Hget' Hset'].
  rewrite Hget'. cbn [mbind result_bind]. rewrite to_numeric_coerce.
  cbn [mbind result_bind]. rewrite Hset'. cbn [mbind result_bind].
  set (d' := {| columns := columns d; rows := _ |}).
  unfold Frame.getitem. change (Frame.get_loc "Gross Sales" (columns d')) with (Some 4).
  cbn [mbind result_bind]. rewrite gross_mask.
  unfold Frame.getitem_mask, Frame.reset_index, Frame.dropna_all.
  subst d' d. cbn [columns rows].
  rewrite select_map_filter. unfold rows_after. do 3 f_equal.
  rewrite !map_map. reflexivity.
Qed.

Lemma normalize_rows (L : Library) (df : DataFrame colkey) :
  16 <= length (columns df) ->
  normalize L df
  = Ok {| columns := FINAL_COLS; rows := rows_after L (rows_before L (rows df)) |}.
Proof.
  intros Hn. unfold normalize. rewrite before_truncation_rows by exact Hn.
  cbn [mbind result_bind]. now rewrite after_truncation_rows.
Qed.

Lemma normalize_short (L : Library) (df : DataFrame colkey) :
  length (columns df) < 16 ->
  normalize L df = Raise (ValueError_LengthMismatch (length (columns df)) 16).
Proof.
  intros Hn. unfold normalize, before_truncation, Frame.set_columns.
  rewrite flatten_columns_length, Nat.eqb_refl. cbn [mbind result_bind].
  unfold _rename_by_position, Frame.set_columns, Frame.iloc_cols. cbn [columns rows].
  rewrite length_take, flatten_columns_length.
  change (length FINAL_COLS) with 16.
  replace (16 `min` length (columns df)) with (length (columns df)) by lia.
  destruct (16 =? length (columns df)) eqn:E; [apply Nat.eqb_eq in E; lia|].
  reflexivity.
Qed.

(** ** Rows of the result *)

Lemma alter_all_cons (f : cell -> cell) (i : nat) (idxs : list nat) (r : list cell) :
  alter_all f (i :: idxs) r = alter_all f idxs (alter f i r).
Proof. reflexivity. Qed.

Lemma alter_all_length (f : cell -> cell) (idxs : list nat) (r : list cell) :
  length (alter_all f idxs r) = length r.
Proof.
  revert r. induction idxs as [|i idxs IH]; intros r; [reflexivity|].
  rewrite alter_all_cons, IH. apply length_alter.
Qed.

Lemma alter_all_lookup (f : cell -> cell) (idxs : list nat) (r : list cell) (j : nat) :
  NoDup idxs ->
  alter_all f idxs r !! j
  = if existsb (Nat.eqb j) idxs then f <$> r !! j else r !! j.
Proof.
  intros Hnd. revert r. induction Hnd as [|i idxs Hi _ IH]; intros r; [reflexivity|].
  rewrite alter_all_cons, IH. cbn [existsb].
  destruct (Nat.eqb_spec j i) as [->|Hne].
  - cbn [orb].
    destruct (existsb (Nat.eqb i) idxs) eqn:E.
    + exfalso. apply existsb_exists in E. destruct E as (k & Hk & Hik).
      apply Nat.eqb_eq in Hik. subst k. apply Hi. apply list_elem_of_In. exact Hk.
    + apply list_lookup_alter_eq.
  - cbn [orb]. rewrite list_lookup_alter_ne by congruence. reflexivity.
Qed.

Lemma numeric_positions_nodup : NoDup [4; 5; 6; 7; 8; 9; 10; 13; 14; 15].
Proof.
  apply (bool_decide_unpack _). vm_compute. exact I.
Qed.

Lemma typed_row_length (L : Library) (r : list cell) :
  length (typed_row L r) = length r.
Proof.
  unfold typed_row. now rewrite length_alter, alter_all_length, length_alter.
Qed.

Lemma typed_row_lookup (L : Library) (r : list cell) (j : nat) :
  typed_row L r !! j
  = (if j =? 4 then fmap (coerce_cell L) else id)
      ((if existsb (Nat.eqb j) [4; 5; 6; 7; 8; 9; 10; 13; 14; 15]
        then fmap (coerce_cell L) else id)
         ((if j =? 2 then fmap (last4_cell L) else id) (r !! j))).
Proof.
  unfold typed_row.
  rewrite list_lookup_alter.
  assert (Hin : alter_all (coerce_cell L) [4; 5; 6; 7; 8; 9; 10; 13; 14; 15]
                  (alter (last4_cell L) 2 r) !! j
                = (if existsb (Nat.eqb j) [4; 5; 6; 7; 8; 9; 10; 13; 14; 15]
                   then fmap (coerce_cell L) else id)
                    ((if j =? 2 then fmap (last4_cell L) else id) (r !! j))).
  { rewrite alter_all_lookup by apply numeric_positions_nodup.
    rewrite list_lookup_alter.
    destruct (Nat.eqb_spec j 2) as [->|Hne].
    - reflexivity.
    - destruct (decide (2 = j)); [congruence|].
      destruct (existsb _ _); reflexivity. }
  destruct (Nat.eqb_spec j 4) as [->|Hne].
  - destruct (decide (4 = 4)); [|congruence]. rewrite Hin. reflexivity.
  - destruct (decide (4 = j)); [congruence|]. exact Hin.
Qed.

Lemma rows_after_In (L : Library) (rs : list (list cell)) (r : list cell) :
  In r (rows_after L rs) <->
  exists r0, In r0 rs /\ r = typed_row L r0
             /\ gross_ok r = true /\ all_missing r = false.
Proof.
  unfold rows_after. rewrite filter_In, filter_In, in_map_iff, negb_true_iff.
  split.
  - intros [[(r0 & <- & Hin) Hg] Hm]. eauto.
  - intros (r0 & Hin & -> & Hg & Hm). eauto.
Qed.

Lemma rows_before_In (L : Library) (rs : list (list cell)) (r : list cell) :
  In r (rows_before L rs) <->
  exists raw, In raw rs
              /\ r = alter (parse_date_cell L (date_column (cleaned_rows L rs))) 3
                       (map (clean_cell L) (take 16 raw))
              /\ all_missing (map (clean_cell L) (take 16 raw)) = false.
Proof.
  unfold rows_before. rewrite in_map_iff. unfold cleaned_rows at 2 3. split.
  - intros (c & <- & Hc). apply filter_In in Hc. destruct Hc as [Hc Hm].
    apply in_map_iff in Hc. destruct Hc as (raw & <- & Hraw).
    apply negb_true_iff in Hm. eauto.
  - intros (raw & Hraw & -> & Hm). eexists. split; [reflexivity|].
    apply filter_In. split; [|now apply negb_true_iff].
    apply in_map_iff. eauto.
Qed.

(** A result of the script comes from a sheet of sixteen columns or
    more, and is the row-wise reading of it. *)
Lemma normalize_ok_inv (L : Library) (df : DataFrame colkey) (out : DataFrame string) :
  normalize L df = Ok out ->
  16 <= length (columns df)
  /\ out = {| columns := FINAL_COLS; rows := rows_after L (rows_before L (rows df)) |}.
Proof.
  intros H. destruct (le_lt_dec 16 (length (columns df))) as [Hn|Hn].
  - split; [exact Hn|]. rewrite normalize_rows in H by exact Hn. congruence.
  - rewrite normalize_short in H by exact Hn. discriminate.
Qed.

Lemma num_gt0_spec (x : num) :
  num_gt0 x = true ->
  match x with Fin q => (0 < q)%Q | Inf negative => negative = false end.
Proof.
  destruct x as [q|b]; simpl.
  - intros H. apply Z.ltb_lt in H. unfold Qlt. simpl. lia.
  - now destruct b.
Qed.

Lemma gross_ok_inv (r : list cell) :
  gross_ok r = true -> exists x, r !! 4 = Some (Num x) /\ num_gt0 x = true.
Proof.
  unfold gross_ok. destruct (r !! 4) as [c|]; simpl; [|discriminate].
  destruct c; simpl; try discriminate. eauto.
Qed.

(** ** The sample sheet *)

(** Scenarios A, D and E: of the six rows, the one with Gross Sales
    ["0"], the blank one and the one with ["abc"] are dropped, and
    ["1,200.50"] is read as 1200.50. *)
Example normalize_sheet : normalize Sample.library Sample.sheet = Ok Sample.output.
Proof. vm_compute. reflexivity. Qed.

(** ** Invariants of the result *)

(** C1.  In every row of the result the Gross Sales field is present,
    is a number and is greater than zero. *)
Theorem gross_sales_positive (L : Library) (df : DataFrame colkey)
    (out : DataFrame string) (r : list cell) :
  normalize L df = Ok out ->
  In r (rows out) ->
  exists x, field out r "Gross Sales" = Some (Num x)
            /\ isna (Num x) = false
            /\ num_gt0 x = true
            /\ match x with Fin q => (0 < q)%Q | Inf negative => negative = false end.
Proof.
  intros Hn Hr. apply normalize_ok_inv in Hn. destruct Hn as [_ ->].
  cbn [rows] in Hr. apply rows_after_In in Hr.
  destruct Hr as (r0 & _ & _ & Hg & _).
  apply gross_ok_inv in Hg. destruct Hg as (x & Hx & Hpos).
  exists x. split; [exact Hx|]. split; [reflexivity|].
  split; [exact Hpos|]. apply num_gt0_spec, Hpos.
Qed.

Lemma gross_sales_positive_witness :
  exists x, field Sample.output (Sample.out_row (Str "AB") NaT (Num (Fin (2401 # 2))))
              "Gross Sales" = Some (Num x)
            /\ isna (Num x) = false
            /\ num_gt0 x = true
            /\ match x with Fin q => (0 < q)%Q | Inf negative => negative = false end.
Proof.
  apply (gross_sales_positive Sample.library Sample.sheet).
  - vm_compute. reflexivity.
  - vm_compute. right. left. reflexivity.
Defined.

Lemma take_16_twice {A} (l : list A) : take 16 (take 16 l) = take 16 l.
Proof. rewrite take_take. reflexivity. Qed.

Lemma rows_before_take (L : Library) (rs : list (list cell)) :
  rows_before L (map (take 16) rs) = rows_before L rs.
Proof.
  assert (H : cleaned_rows L (map (take 16) rs) = cleaned_rows L rs).
  { unfold cleaned_rows. rewrite map_map. f_equal.
    apply map_ext. intros r. now rewrite take_16_twice. }
  unfold rows_before. now rewrite H.
Qed.

Lemma output_row_length (L : Library) (rs : list (list cell)) (r : list cell) :
  In r (rows_after L (rows_before L rs)) ->
  exists raw, In raw rs /\ length r = Nat.min 16 (length raw).
Proof.
  intros Hr. apply rows_after_In in Hr. destruct Hr as (r0 & Hr0 & -> & _).
  apply rows_before_In in Hr0. destruct Hr0 as (raw & Hraw & -> & _).
  exists raw. split; [exact Hraw|].
  now rewrite typed_row_length, length_alter, length_map, length_take.
Qed.

(** C2.  A sheet of sixteen columns or more has a result; its columns
    are the sixteen names, in order, whatever the header said; each of
    its rows is as wide as the first sixteen cells of a row of the
    sheet; and the columns after the sixteenth play no part in it. *)
Theorem column_contract (L : Library) (df : DataFrame colkey) :
  16 <= length (columns df) ->
  exists out,
    normalize L df = Ok out
    /\ columns out
       = [ "Row No."; "Store Code"; "Store Name"; "Date"; "Gross Sales";
           "Net Sales"; "Discounted"; "Item Void"; "Void Value"; "Item Refund";
           "Refund Value"; "Terminal"; "Unnamed"; "Quantity"; "Transaction";
           "Average Transaction Value" ]
    /\ (forall r, In r (rows out) ->
          exists raw, In raw (rows df) /\ length r = Nat.min 16 (length raw))
    /\ normalize L (Frame.iloc_cols 16 df) = Ok out
    /\ (forall df' : DataFrame colkey,
          rows df' = rows df -> 16 <= length (columns df') ->
          normalize L df' = Ok out).
Proof.
  intros Hn. eexists. split; [apply normalize_rows, Hn|].
  cbn [columns rows]. split; [reflexivity|]. split; [|split].
  - intros r. apply output_row_length.
  - rewrite normalize_rows.
    + cbn [Frame.iloc_cols rows]. now rewrite rows_before_take.
    + cbn [Frame.iloc_cols columns]. rewrite length_take. lia.
  - intros df' Hrows Hn'. rewrite normalize_rows by exact Hn'. now rewrite Hrows.
Qed.

Lemma column_contract_witness :
  exists out,
    normalize Sample.library Sample.sheet = Ok out
    /\ columns out
       = [ "Row No."; "Store Code"; "Store Name"; "Date"; "Gross Sales";
           "Net Sales"; "Discounted"; "Item Void"; "Void Value"; "Item Refund";
           "Refund Value"; "Terminal"; "Unnamed"; "Quantity"; "Transaction";
           "Average Transaction Value" ]
    /\ (forall r, In r (rows out) ->
          exists raw, In raw (rows Sample.sheet) /\ length r = Nat.min 16 (length raw))
    /\ normalize Sample.library (Frame.iloc_cols 16 Sample.sheet) = Ok out
    /\ (forall df' : DataFrame colkey,
          rows df' = rows Sample.sheet -> 16 <= length (columns df') ->
          normalize Sample.library df' = Ok out).
Proof.
  apply (column_contract Sample.library Sample.sheet). vm_compute. lia.
Defined.

(** C4.  A sheet of fewer than sixteen columns has no result: the
    assignment of the sixteen names raises the length mismatch of
    pandas, which reports the number of columns found. *)
Theorem short_sheet_raises (L : Library) (df : DataFrame colkey) :
  length (columns df) < 16 ->
  normalize L df = Raise (ValueError_LengthMismatch (length (columns df)) 16)
  /\ forall out, normalize L df <> Ok out.
Proof.
  intros Hn. rewrite normalize_short by exact Hn. split; [reflexivity|].
  intros out. discriminate.
Qed.

Lemma short_sheet_raises_witness :
  normalize Sample.library Sample.short_sheet
  = Raise (ValueError_LengthMismatch (length (columns Sample.short_sheet)) 16)
  /\ forall out, normalize Sample.library Sample.short_sheet <> Ok out.
Proof.
  apply (short_sheet_raises Sample.library Sample.short_sheet). vm_compute. lia.
Defined.

Lemma forallb_false_exists {A} (p : A -> bool) (l : list A) :
  forallb p l = false -> exists a, In a l /\ p a = false.
Proof.
  induction l as [|a l IH]; simpl; [discriminate|].
  destruct (p a) eqn:E; simpl.
  - intros H. destruct (IH H) as (b & Hb & Hp). eauto.
  - intros _. eauto.
Qed.

(** C8.  No row of the result has every field missing: each has a field
    that is not a missing marker. *)
Theorem no_empty_row (L : Library) (df : DataFrame colkey)
    (out : DataFrame string) (r : list cell) :
  normalize L df = Ok out ->
  In r (rows out) ->
  ~ Forall (fun c => isna c = true) r
  /\ exists c, In c r /\ isna c = false.
Proof.
  intros Hn Hr. apply normalize_ok_inv in Hn. destruct Hn as [_ ->].
  cbn [rows] in Hr. apply rows_after_In in Hr.
  destruct Hr as (r0 & _ & _ & _ & Hm).
  apply forallb_false_exists in Hm. destruct Hm as (c & Hc & Hna).
  split; [|eauto].
  intros Hall. rewrite List.Forall_forall in Hall. specialize (Hall c Hc). congruence.
Qed.

Lemma no_empty_row_witness :
  ~ Forall (fun c => isna c = true) (Sample.out_row (Str "<NA>") NaT (Num (Fin (29 # 4))))
  /\ exists c, In c (Sample.out_row (Str "<NA>") NaT (Num (Fin (29 # 4)))) /\ isna c = false.
Proof.
  apply (no_empty_row Sample.library Sample.sheet Sample.output).
  - vm_compute. reflexivity.
  - vm_compute. right. right. left. reflexivity.
Defined.

(** ** Store Name *)

(** Where a row of the result comes from: a row of the sheet, cleaned
    and with its Date parsed, then typed. *)
Lemma output_row_origin (L : Library) (df : DataFrame colkey)
    (out : DataFrame string) (r : list cell) :
  normalize L df = Ok out ->
  In r (rows out) ->
  exists raw mid r0,
    In raw (rows df)
    /\ before_truncation L df = Ok mid
    /\ after_truncation L mid = Ok out
    /\ columns mid = FINAL_COLS /\ columns out = FINAL_COLS
    /\ In r0 (rows mid)
    /\ r0 = alter (parse_date_cell L (date_column (cleaned_rows L (rows df)))) 3
              (map (clean_cell L) (take 16 raw))
    /\ r = typed_row L r0
    /\ 4 < length r0.
Proof.
  intros Hn Hr. apply normalize_ok_inv in Hn. destruct Hn as [Hn ->].
  cbn [rows] in Hr. apply rows_after_In in Hr.
  destruct Hr as (r0 & Hr0 & -> & Hg & _).
  pose proof Hr0 as Hr0'. apply rows_before_In in Hr0'.
  destruct Hr0' as (raw & Hraw & Hr0eq & _).
  exists raw, {| columns := FINAL_COLS; rows := rows_before L (rows df) |}, r0.
  split; [exact Hraw|]. split; [apply before_truncation_rows, Hn|].
  split; [now apply after_truncation_rows|].
  repeat (split; [first [reflexivity | assumption]|]).
  apply gross_ok_inv in Hg. destruct Hg as (x & Hx & _).
  apply lookup_lt_Some in Hx. rewrite typed_row_length in Hx. exact Hx.
Qed.

Lemma field_at (d : DataFrame string) (r : list cell) (c : string) (i : nat) :
  columns d = FINAL_COLS ->
  Frame.get_loc c FINAL_COLS = Some i ->
  field d r c = r !! i.
Proof. intros Hc Hi. unfold field. now rewrite Hc, Hi. Qed.

(** C3.  The Store Name of a row of the result is the last four
    characters of the text of that cell before the truncation: a suffix
    of it, four characters long when the text has four, and the whole
    text when it has fewer.  The row before the truncation is the one
    with the same Row No., Store Code, Date, Terminal and Unnamed. *)
Theorem store_name_last4 (L : Library) (df : DataFrame colkey)
    (out : DataFrame string) (r : list cell) :
  normalize L df = Ok out ->
  In r (rows out) ->
  exists mid r0 c0,
    before_truncation L df = Ok mid
    /\ after_truncation L mid = Ok out
    /\ In r0 (rows mid)
    /\ (forall c, In c ["Row No."; "Store Code"; "Date"; "Terminal"; "Unnamed"] ->
          field out r c = field mid r0 c)
    /\ field mid r0 "Store Name" = Some c0
    /\ let t := cell_str L c0 in
       field out r "Store Name" = Some (Str (PyText.slice_last 4 t))
       /\ (exists p, t = (p ++ PyText.slice_last 4 t)%string)
       /\ String.length (PyText.slice_last 4 t) = Nat.min 4 (String.length t)
       /\ (String.length t < 4 -> PyText.slice_last 4 t = t).
Proof.
  intros Hn Hr.
  destruct (output_row_origin L df out r Hn Hr)
    as (raw & mid & r0 & _ & Hb & Ha & Hcm & Hco & Hr0 & _ & -> & Hlen).
  destruct (lookup_lt_is_Some_2 r0 2) as [c0 Hc0]; [lia|].
  exists mid, r0, c0.
  split; [exact Hb|]. split; [exact Ha|]. split; [exact Hr0|]. split; [|split].
  - intros c Hc. cbn [In] in Hc.
    destruct Hc as [<-|[<-|[<-|[<-|[<-|[]]]]]];
      (erewrite !field_at by (first [eassumption | reflexivity]));
      rewrite typed_row_lookup; reflexivity.
  - erewrite field_at by (first [eassumption | reflexivity]). exact Hc0.
  - cbn zeta. split; [|split; [|split]].
    + erewrite field_at by (first [eassumption | reflexivity]).
      rewrite typed_row_lookup, Hc0. reflexivity.
    + destruct (slice_last_suffix 4 (cell_str L c0)) as (p & Hp & _). eauto.
    + destruct (slice_last_suffix 4 (cell_str L c0)) as (p & _ & Hp). exact Hp.
    + intros Hlt. apply slice_last_short. lia.
Qed.

Lemma store_name_last4_witness :
  exists mid r0 c0,
    before_truncation Sample.library Sample.sheet = Ok mid
    /\ after_truncation Sample.library mid = Ok Sample.output
    /\ In r0 (rows mid)
    /\ (forall c, In c ["Row No."; "Store Code"; "Date"; "Terminal"; "Unnamed"] ->
          field Sample.output (Sample.out_row (Str "-001") (Date Sample.march_5)
                               (Num (Fin (15 # 1)))) c
          = field mid r0 c)
    /\ field mid r0 "Store Name" = Some c0
    /\ let t := cell_str Sample.library c0 in
       field Sample.output (Sample.out_row (Str "-001") (Date Sample.march_5)
                            (Num (Fin (15 # 1)))) "Store Name"
       = Some (Str (PyText.slice_last 4 t))
       /\ (exists p, t = (p ++ PyText.slice_last 4 t)%string)
       /\ String.length (PyText.slice_last 4 t) = Nat.min 4 (String.length t)
       /\ (String.length t < 4 -> PyText.slice_last 4 t = t).
Proof.
  apply (store_name_last4 Sample.library Sample.sheet).
  - vm_compute. reflexivity.
  - vm_compute. left. reflexivity.
Defined.

(** Scenario C. *)
Example store_name_scenario_C (L : Library) :
  _store_name_last4 L [Str "SHOP-001"; Str "AB"; NA] = [Str "-001"; Str "AB"; Str "<NA>"].
Proof. reflexivity. Qed.

Lemma clean_cell_cases (L : Library) (c : cell) :
  clean_cell L c = NA \/ exists t, clean_cell L c = Str t.
Proof.
  unfold clean_cell. destruct (existsb _ _); eauto.
Qed.

(** C10.  The Store Name of a row of the result is never missing: it is
    a text of at most four characters.  Where the cell of the sheet was
    blank, or was cleaned to the missing marker, the text is ["<NA>"],
    the last four characters of what [str()] gives for the marker. *)
Theorem store_name_present (L : Library) (df : DataFrame colkey)
    (out : DataFrame string) (r : list cell) :
  normalize L df = Ok out ->
  In r (rows out) ->
  (exists s, field out r "Store Name" = Some (Str s)
             /\ isna (Str s) = false
             /\ String.length s <= 4)
  /\ exists raw c,
       In raw (rows df) /\ raw !! 2 = Some c
       /\ field out r "Row No." = clean_cell L <$> raw !! 0
       /\ field out r "Store Code" = clean_cell L <$> raw !! 1
       /\ field out r "Store Name"
          = Some (Str (PyText.slice_last 4 (cell_str L (clean_cell L c))))
       /\ (c = NaN -> field out r "Store Name" = Some (Str "<NA>"))
       /\ (clean_cell L c = NA ->
             field out r "Store Name"
             = Some (Str (PyText.slice_last 4 (cell_str L NA)))
             /\ PyText.slice_last 4 (cell_str L NA) = "<NA>").
Proof.
  intros Hn Hr.
  destruct (output_row_origin L df out r Hn Hr)
    as (raw & mid & r0 & Hraw & _ & _ & _ & Hco & _ & Hr0 & -> & Hlen).
  assert (Hraw2 : exists c, raw !! 2 = Some c).
  { apply lookup_lt_is_Some_2. subst r0.
    rewrite length_alter, length_map, length_take in Hlen. lia. }
  destruct Hraw2 as [c Hc].
  assert (Hr02 : r0 !! 2 = Some (clean_cell L c)).
  { subst r0. rewrite list_lookup_alter_ne by lia.
    rewrite list_lookup_fmap, lookup_take_lt by lia. now rewrite Hc. }
  assert (Hout : field out (typed_row L r0) "Store Name"
                 = Some (Str (PyText.slice_last 4 (cell_str L (clean_cell L c))))).
  { erewrite field_at by (first [eassumption | reflexivity]).
    rewrite typed_row_lookup, Hr02. reflexivity. }
  split.
  - eexists. split; [exact Hout|]. split; [reflexivity|].
    destruct (slice_last_suffix 4 (cell_str L (clean_cell L c))) as (p & _ & Hp).
    rewrite Hp. lia.
  - exists raw, c. split; [exact Hraw|]. split; [exact Hc|].
    split; [|split; [|split; [exact Hout|split]]].
    + erewrite field_at by (first [eassumption | reflexivity]).
      rewrite typed_row_lookup. cbn. subst r0.
      rewrite list_lookup_alter_ne by lia.
      now rewrite list_lookup_fmap, lookup_take_lt by lia.
    + erewrite field_at by (first [eassumption | reflexivity]).
      rewrite typed_row_lookup. cbn. subst r0.
      rewrite list_lookup_alter_ne by lia.
      now rewrite list_lookup_fmap, lookup_take_lt by lia.
    + intros ->. exact Hout.
    + intros Hna. rewrite Hna in Hout. split; [exact Hout|reflexivity].
Qed.

Lemma store_name_present_witness :
  (exists s, field Sample.output (Sample.out_row (Str "<NA>") NaT (Num (Fin (29 # 4))))
               "Store Name" = Some (Str s)
             /\ isna (Str s) = false
             /\ String.length s <= 4)
  /\ exists raw c,
       In raw (rows Sample.sheet) /\ raw !! 2 = Some c
       /\ field Sample.output (Sample.out_row (Str "<NA>") NaT (Num (Fin (29 # 4))))
            "Row No." = clean_cell Sample.library <$> raw !! 0
       /\ field Sample.output (Sample.out_row (Str "<NA>") NaT (Num (Fin (29 # 4))))
            "Store Code" = clean_cell Sample.library <$> raw !! 1
       /\ field Sample.output (Sample.out_row (Str "<NA>") NaT (Num (Fin (29 # 4))))
            "Store Name"
          = Some (Str (PyText.slice_last 4
                         (cell_str Sample.library (clean_cell Sample.library c))))
       /\ (c = NaN ->
             field Sample.output (Sample.out_row (Str "<NA>") NaT (Num (Fin (29 # 4))))
               "Store Name" = Some (Str "<NA>"))
       /\ (clean_cell Sample.library c = NA ->
             field Sample.output (Sample.out_row (Str "<NA>") NaT (Num (Fin (29 # 4))))
               "Store Name"
             = Some (Str (PyText.slice_last 4 (cell_str Sample.library NA)))
             /\ PyText.slice_last 4 (cell_str Sample.library NA) = "<NA>").
Proof.
  apply (store_name_present Sample.library Sample.sheet).
  - vm_compute. reflexivity.
  - vm_compute. right. right. left. reflexivity.
Defined.

(** ** Numeric coercion *)

Lemma set_mem_get_loc (c : string) (cols : list string) :
  set_mem c cols = true -> is_Some (Frame.get_loc c cols).
Proof.
  induction cols as [|k cols IH]; simpl; [discriminate|].
  rewrite (String.eqb_sym c k). destruct (String.eqb k c); [eauto|].
  simpl. intros H. destruct (IH H) as [i ->]. eauto.
Qed.

(** The names that are no column of the frame are passed over. *)
Lemma coerce_numeric_skip (L : Library) (names : list string) :
  forall df,
    _coerce_numeric L df names
    = _coerce_numeric L df (List.filter (fun c => set_mem c (columns df)) names).
Proof.
  unfold _coerce_numeric.
  induction names as [|c names IH]; intros df; [reflexivity|].
  cbn [List.filter for_each].
  destruct (set_mem c (columns df)) eqn:E.
  - cbn [for_each]. rewrite E.
    destruct (set_mem_get_loc _ _ E) as [i Hi].
    destruct (assign_column df c i (coerce_cell L) Hi) as [Hget Hset].
    rewrite Hget. cbn [mbind result_bind]. rewrite to_numeric_coerce.
    cbn [mbind result_bind]. rewrite Hset.
    set (df' := {| columns := columns df; rows := _ |}). exact (IH df').
  - apply IH.
Qed.

(** [_coerce_numeric] returns for every frame and every list of names,
    and keeps the columns and the number of rows. *)
Lemma coerce_numeric_total (L : Library) (df : DataFrame string) (names : list string) :
  exists df', _coerce_numeric L df names = Ok df'
              /\ columns df' = columns df
              /\ length (rows df') = length (rows df).
Proof.
  rewrite coerce_numeric_skip, coerce_numeric_rows.
  - eexists. split; [reflexivity|]. cbn [columns rows].
    split; [reflexivity|apply length_map].
  - apply List.Forall_forall. intros c Hc. apply filter_In in Hc.
    apply set_mem_get_loc, Hc.
Qed.

Lemma get_loc_lookup (c : string) (cols : list string) (i : nat) :
  Frame.get_loc c cols = Some i -> cols !! i = Some c.
Proof.
  revert i. induction cols as [|k cols IH]; intros i; simpl; [discriminate|].
  destruct (String.eqb_spec k c) as [->|Hne].
  - intros [= <-]. reflexivity.
  - destruct (Frame.get_loc c cols); [|discriminate].
    intros [= <-]. simpl. now apply IH.
Qed.

Lemma numeric_field (L : Library) (r : list cell) (c : string) :
  match Frame.get_loc c FINAL_COLS with
  | Some i => alter_all (coerce_cell L) [4; 5; 6; 7; 8; 9; 10; 13; 14; 15] r !! i
  | None => None
  end
  = if set_mem c NUMERIC_COLS
    then coerce_cell L <$> match Frame.get_loc c FINAL_COLS with
                           | Some i => r !! i
                           | None => None
                           end
    else match Frame.get_loc c FINAL_COLS with
         | Some i => r !! i
         | None => None
         end.
Proof.
  destruct (Frame.get_loc c FINAL_COLS) as [i|] eqn:E.
  - apply get_loc_lookup in E.
    rewrite alter_all_lookup by apply numeric_positions_nodup.
    do 16 (destruct i as [|i]; [injection E as <-; reflexivity|]).
    discriminate.
  - now destruct (set_mem c NUMERIC_COLS).
Qed.

(** C5.  The numeric fields are ten.  [_coerce_numeric] never raises and
    drops no row.  On a frame with the sixteen columns it replaces each
    cell of a numeric field by its coercion and leaves the other fields
    alone.  The coercion of a cell reads its text without the commas:
    the number, when the text is one, and the missing number otherwise;
    so ["1,200.50"] becomes 1200.50 and ["abc"] becomes missing. *)
Theorem numeric_coercion (L : Library) :
  List.filter (fun c => set_mem c NUMERIC_COLS) FINAL_COLS
  = [ "Gross Sales"; "Net Sales"; "Discounted"; "Item Void"; "Void Value";
      "Item Refund"; "Refund Value"; "Quantity"; "Transaction";
      "Average Transaction Value" ]
  /\ (forall df names,
        exists df', _coerce_numeric L df names = Ok df'
                    /\ columns df' = columns df
                    /\ length (rows df') = length (rows df))
  /\ (forall df,
        columns df = FINAL_COLS ->
        exists df',
          _coerce_numeric L df (List.filter (fun c => set_mem c NUMERIC_COLS) FINAL_COLS)
          = Ok df'
          /\ forall k r, rows df !! k = Some r ->
               exists r', rows df' !! k = Some r'
                 /\ forall c, field df' r' c
                              = if set_mem c NUMERIC_COLS
                                then coerce_cell L <$> field df r c
                                else field df r c)
  /\ (forall c,
        match Floatify.floatify (PyText.replace_char ","%char "" (cell_str L c)) with
        | Some x => coerce_cell L c = Num x
        | None => coerce_cell L c = NaN /\ isna (coerce_cell L c) = true
        end)
  /\ _coerce_numeric L
       {| columns := ["Store Code"; "Gross Sales"];
          rows := [[Str "S01"; Str "1,200.50"]; [Str "S02"; Str "abc"]] |}
       ["Gross Sales"; "Net Sales"]
     = Ok {| columns := ["Store Code"; "Gross Sales"];
             rows := [[Str "S01"; Num (Fin (2401 # 2))]; [Str "S02"; NaN]] |}
  /\ (2401 # 2 == 1200.50)%Q.
Proof.
  split; [reflexivity|]. split; [apply coerce_numeric_total|].
  split; [|split; [|split; [reflexivity|reflexivity]]].
  - intros df Hc. rewrite coerce_numeric_rows.
    + eexists. split; [reflexivity|]. cbn [rows]. intros k r Hk.
      rewrite list_lookup_fmap, Hk. eexists. split; [reflexivity|].
      intros c. unfold field. cbn [columns]. rewrite Hc.
      change (positions FINAL_COLS
                (List.filter (fun c => set_mem c NUMERIC_COLS) FINAL_COLS))
        with [4; 5; 6; 7; 8; 9; 10; 13; 14; 15].
      apply numeric_field.
    + rewrite Hc. apply List.Forall_forall. intros c Hin.
      apply filter_In in Hin. destruct Hin as [Hin _].
      repeat (destruct Hin as [<-|Hin]; [eexists; reflexivity|]). destruct Hin.
  - intros c. unfold coerce_cell.
    destruct (Floatify.floatify _); [reflexivity|split; reflexivity].
Qed.

(** With [errors="raise"] the same text would raise: [errors="coerce"],
    which the script passes, is what makes it missing. *)
Example to_numeric_raise :
  pd.to_numeric ErrorsRaise ["15"; "abc"] = Raise (ValueError_Unparsable "abc")
  /\ pd.to_numeric ErrorsCoerce ["15"; "abc"] = Ok [Num (Fin (15 # 1)); NaN].
Proof. split; reflexivity. Qed.

(** ** Date parsing *)





Lemma parse_date_cell_twice (L : Library) (col col' : list cell) (c : cell) :
  parse_date_cell L col' (parse_date_cell L col c) = parse_date_cell L col c.
Proof.
  unfold parse_date_cell. destruct (isna c); [reflexivity|].
  destruct (pd.read_datetime L true col c); reflexivity.
Qed.

Lemma parse_date_cell_typed (L : Library) (col : list cell) (c : cell) :
  parse_date_cell L col c = NaT \/ exists t, parse_date_cell L col c = Date t.
Proof.
  unfold parse_date_cell. destruct (isna c); [auto|].
  destruct (pd.read_datetime L true col c); eauto.
Qed.



(** In a column read day first, a date that is none in that order and a
    date outside the range of a timestamp are missing; blank elements
    before the first date do not count. *)
Example date_parsing_column (L : Library) :
  _parse_date L [NA; Str "05/03/2024"; Str "03/25/2024"; Str "05/03/3000";
                 Str "31-12-2024"; NA]
  = Ok [ NaT;
         Date {| ts_year := 2024; ts_month := 3; ts_day := 5; ts_nanos := 0 |};
         NaT; NaT;
         parse_date_cell L
           [NA; Str "05/03/2024"; Str "03/25/2024"; Str "05/03/3000";
            Str "31-12-2024"; NA] (Str "31-12-2024");
         NaT ].
Proof. rewrite parse_date_total. reflexivity. Qed.

(** With [errors="raise"] a text that does not parse would raise. *)
Example to_datetime_raise :
  pd.to_datetime Sample.library ErrorsRaise true [Str "05/03/2024"; Str "soon"]
  = Raise (ValueError_Unparsable "soon")
  /\ pd.to_datetime Sample.library ErrorsCoerce true [Str "05/03/2024"; Str "soon"]
     = Ok [Date Sample.march_5; NaT].
Proof. split; reflexivity. Qed.

(** * Further properties of the helpers *)

(** ** Trimmed text *)

Lemma lstrip_length (s : string) : String.length (PyText.lstrip s) <= String.length s.
Proof.
  induction s as [|a s IH]; simpl; [lia|].
  destruct (PyText.is_space a); simpl; lia.
Qed.

Lemma lstrip_fixed_head (a : ascii) (s : string) :
  PyText.lstrip (String a s) = String a s -> PyText.is_space a = false.
Proof.
  simpl. destruct (PyText.is_space a); [|reflexivity].
  intros H. pose proof (lstrip_length s) as Hl. rewrite H in Hl. simpl in Hl. lia.
Qed.

Lemma lstrip_head (a : ascii) (s : string) :
  PyText.is_space a = false -> PyText.lstrip (String a s) = String a s.
Proof. intros H. simpl. now rewrite H. Qed.

Lemma lstrip_lstrip (s : string) : PyText.lstrip (PyText.lstrip s) = PyText.lstrip s.
Proof.
  induction s as [|a s IH]; [reflexivity|].
  simpl. destruct (PyText.is_space a) eqn:E; [exact IH|].
  simpl. now rewrite E.
Qed.

Lemma rstrip_head (a : ascii) (s : string) :
  PyText.is_space a = false ->
  PyText.rstrip (String a s) = String a (PyText.rstrip s).
Proof. intros H. simpl. destruct (PyText.rstrip s); [now rewrite H|reflexivity]. Qed.

Lemma rstrip_rstrip (s : string) : PyText.rstrip (PyText.rstrip s) = PyText.rstrip s.
Proof.
  induction s as [|a s IH]; [reflexivity|].
  simpl. destruct (PyText.rstrip s) as [|b r] eqn:E.
  - destruct (PyText.is_space a) eqn:Ea; [reflexivity|].
    simpl. now rewrite Ea.
  - change (PyText.rstrip (String a (String b r))) with
      (match PyText.rstrip (String b r) with
       | EmptyString => if PyText.is_space a then EmptyString else String a EmptyString
       | t => String a t
       end).
    now rewrite IH.
Qed.

Lemma lstrip_strip (s : string) : PyText.lstrip (PyText.strip s) = PyText.strip s.
Proof.
  unfold PyText.strip. pose proof (lstrip_lstrip s) as H.
  destruct (PyText.lstrip s) as [|a t]; [reflexivity|].
  apply lstrip_fixed_head in H.
  rewrite rstrip_head by exact H. now apply lstrip_head.
Qed.

Lemma rstrip_strip (s : string) : PyText.rstrip (PyText.strip s) = PyText.strip s.
Proof. unfold PyText.strip. apply rstrip_rstrip. Qed.

(** Trimming a trimmed text changes nothing. *)
Lemma strip_strip (s : string) : PyText.strip (PyText.strip s) = PyText.strip s.
Proof.
  unfold PyText.strip at 1. rewrite lstrip_strip. apply rstrip_strip.
Qed.

Lemma lstrip_app (a b : string) :
  a <> "" -> PyText.lstrip a = a -> PyText.lstrip (a ++ b) = (a ++ b)%string.
Proof.
  destruct a as [|c a]; [congruence|]. intros _ H.
  apply lstrip_fixed_head in H. simpl. now rewrite H.
Qed.

Lemma rstrip_app (a b : string) :
  b <> "" -> PyText.rstrip b = b -> PyText.rstrip (a ++ b) = (a ++ b)%string.
Proof.
  intros Hb H. induction a as [|c a IH]; [exact H|].
  simpl. rewrite IH. destruct (a ++ b)%string eqn:E; [|reflexivity].
  destruct a; simpl in E; congruence.
Qed.

Lemma app_not_empty (a b : string) : a <> "" -> (a ++ b)%string <> "".
Proof. destruct a; simpl; congruence. Qed.

Lemma string_app_assoc (a b c : string) :
  ((a ++ b) ++ c)%string = (a ++ b ++ c)%string.
Proof. induction a as [|x a IH]; simpl; [reflexivity|]. now rewrite IH. Qed.

(** Joining non-empty trimmed parts gives a trimmed text. *)
Lemma join_trimmed (sep : string) (parts : list string) :
  parts <> [] ->
  Forall (fun p => p <> "" /\ PyText.lstrip p = p /\ PyText.rstrip p = p) parts ->
  PyText.join sep parts <> ""
  /\ PyText.lstrip (PyText.join sep parts) = PyText.join sep parts
  /\ PyText.rstrip (PyText.join sep parts) = PyText.join sep parts.
Proof.
  unfold PyText.join. intros Hne Hall.
  induction Hall as [|p parts (Hp & Hl & Hr) Hall IH]; [congruence|].
  destruct parts as [|q parts]; [simpl; auto|].
  destruct IH as (Hq & Hlq & Hrq); [congruence|].
  change (String.concat sep (p :: q :: parts))
    with (p ++ sep ++ String.concat sep (q :: parts))%string.
  split; [now apply app_not_empty|]. split.
  - now apply lstrip_app.
  - rewrite <- string_app_assoc. now apply rstrip_app.
Qed.

Lemma label_parts_trimmed (labels : list pyobj) :
  Forall (fun p => p <> "" /\ PyText.lstrip p = p /\ PyText.rstrip p = p)
         (label_parts labels).
Proof.
  unfold label_parts. apply List.Forall_forall. intros p Hp.
  apply in_map_iff in Hp. destruct Hp as (x & <- & Hx).
  apply filter_In in Hx. destruct Hx as [_ Hx].
  apply andb_true_iff in Hx. destruct Hx as [_ Hx].
  apply negb_true_iff in Hx.
  split; [|split; [apply lstrip_strip|apply rstrip_strip]].
  intros E. rewrite E in Hx. discriminate.
Qed.

Lemma flatten_one_trimmed (c : colkey) :
  PyText.strip (flatten_one c) = flatten_one c.
Proof.
  destruct c as [labels|x]; simpl.
  - pose proof (label_parts_trimmed labels) as Hall.
    destruct (label_parts labels) as [|p parts] eqn:E; [reflexivity|].
    destruct (join_trimmed " | " (p :: parts)) as (_ & Hl & Hr); [congruence|exact Hall|].
    unfold PyText.strip. now rewrite Hl, Hr.
  - destruct (is_None x); [reflexivity|apply strip_strip].
Qed.

(** X12.  The labels [_flatten_columns] returns are trimmed, and
    flattening a header that is already flat returns it as it is. *)
Theorem flatten_columns_stable (cols : list colkey) :
  Forall (fun s => PyText.strip s = s) (_flatten_columns cols)
  /\ _flatten_columns (flat_index (_flatten_columns cols)) = _flatten_columns cols.
Proof.
  rewrite !flatten_columns_map. split.
  - apply List.Forall_forall. intros s Hs. apply in_map_iff in Hs.
    destruct Hs as (c & <- & _). apply flatten_one_trimmed.
  - unfold flat_index. rewrite !map_map.
    apply map_ext. intros c. apply flatten_one_trimmed.
Qed.

(** ** [_rename_by_position] on any frame *)

(** X1.  [_rename_by_position] returns exactly when the frame has at
    least as many columns as there are names: then the columns are the
    names and every row is cut to that many cells.  With fewer columns
    the assignment of the names raises, and reports both counts. *)
Theorem rename_by_position_cases {K : Type} (df : DataFrame K) (final_cols : list string) :
  (length final_cols <= length (columns df) ->
     _rename_by_position df final_cols
     = Ok {| columns := final_cols;
             rows := map (take (length final_cols)) (rows df) |})
  /\ (length (columns df) < length final_cols ->
        _rename_by_position df final_cols
        = Raise (ValueError_LengthMismatch (length (columns df)) (length final_cols))).
Proof.
  unfold _rename_by_position, Frame.set_columns, Frame.iloc_cols. cbn [columns rows].
  rewrite length_take. split; intros H.
  - replace (length final_cols `min` length (columns df)) with (length final_cols) by lia.
    now rewrite Nat.eqb_refl.
  - replace (length final_cols `min` length (columns df)) with (length (columns df)) by lia.
    destruct (Nat.eqb_spec (length final_cols) (length (columns df))); [lia|reflexivity].
Qed.

(** ** [_store_name_last4] and [_parse_date] applied again *)

Lemma last4_cell_twice (L : Library) (c : cell) :
  last4_cell L (last4_cell L c) = last4_cell L c.
Proof.
  unfold last4_cell. cbn [cell_str]. f_equal. apply slice_last_short.
  destruct (slice_last_suffix 4 (cell_str L c)) as (p & _ & Hlen). lia.
Qed.

(** X5.  [_store_name_last4] returns one text per element, and applying
    it to its own result changes nothing. *)
Theorem store_name_last4_idempotent (L : Library) (series : list cell) :
  length (_store_name_last4 L series) = length series
  /\ _store_name_last4 L (_store_name_last4 L series) = _store_name_last4 L series.
Proof.
  rewrite !store_name_series. split; [apply length_map|].
  rewrite map_map. apply map_ext. apply last4_cell_twice.
Qed.

(** X6.  [_parse_date] returns a column of the same length that holds
    timestamps and missing timestamps only, and parsing that column
    again returns it unchanged. *)
Theorem parse_date_idempotent (L : Library) (series : list cell) :
  exists out,
    _parse_date L series = Ok out
    /\ length out = length series
    /\ Forall (fun c => c = NaT \/ exists t, c = Date t) out
    /\ _parse_date L out = Ok out.
Proof.
  exists (map (parse_date_cell L series) series).
  split; [apply parse_date_total|]. split; [apply length_map|]. split.
  - apply List.Forall_forall. intros c Hc. apply in_map_iff in Hc.
    destruct Hc as (c0 & <- & _). apply parse_date_cell_typed.
  - rewrite parse_date_total, map_map. f_equal.
    apply map_ext. intros c. apply parse_date_cell_twice.
Qed.

(** ** Commas *)

Lemma replace_char_app (old : ascii) (new s t : string) :
  PyText.replace_char old new (s ++ t)
  = (PyText.replace_char old new s ++ PyText.replace_char old new t)%string.
Proof.
  induction s as [|a s IH]; [reflexivity|].
  simpl. destruct (Ascii.eqb a old); rewrite IH; [|reflexivity].
  now rewrite string_app_assoc.
Qed.

Lemma remove_comma (s t : string) :
  PyText.replace_char ","%char "" (s ++ "," ++ t)
  = PyText.replace_char ","%char "" (s ++ t).
Proof. rewrite !replace_char_app. reflexivity. Qed.

(** X8.  The coercion deletes every comma, wherever it stands: a text
    and the same text with a comma inserted coerce to the same cell.  A
    decimal comma is therefore no decimal point. *)
Theorem coercion_ignores_commas (L : Library) (s t : string) :
  pd.to_numeric ErrorsCoerce
    (Series.str_replace ","%char "" (Series.astype_str L [Str (s ++ "," ++ t)]))
  = pd.to_numeric ErrorsCoerce
      (Series.str_replace ","%char "" (Series.astype_str L [Str (s ++ t)]))
  /\ coerce_cell L (Str (s ++ "," ++ t)) = coerce_cell L (Str (s ++ t))
  /\ coerce_cell L (Str "12,5") = Num (Fin (125 # 1)).
Proof.
  split; [|split; [|reflexivity]].
  - unfold Series.str_replace, Series.astype_str. cbn [map cell_str].
    now rewrite remove_comma.
  - unfold coerce_cell. cbn [cell_str]. now rewrite remove_comma.
Qed.

(** ** [_filter_gross_sales_numeric_positive] on any frame *)

Lemma positive_mask (i : nat) (g : list (list cell)) :
  zip_with andb (map notna (map (fun r => default NaN (r !! i)) g))
                (map cell_gt0 (map (fun r => default NaN (r !! i)) g))
  = map (positive_at i) g.
Proof.
  induction g as [|r g IH]; [reflexivity|].
  cbn [map zip_with]. rewrite IH. f_equal.
  unfold positive_at. destruct (r !! i) as [c|]; [|reflexivity].
  destruct c; reflexivity.
Qed.

Lemma filter_gross_rows (L : Library) (df : DataFrame string) (i : nat) :
  Frame.get_loc "Gross Sales" (columns df) = Some i ->
  _filter_gross_sales_numeric_positive L df
  = Ok {| columns := columns df;
          rows := List.filter (positive_at i)
                    (map (alter (coerce_cell L) i) (rows df)) |}.
Proof.
  intros Hloc. unfold _filter_gross_sales_numeric_positive.
  destruct (assign_column df "Gross Sales" i (coerce_cell L) Hloc) as [Hget Hset].
  rewrite Hget. cbn [mbind result_bind]. rewrite to_numeric_coerce.
  cbn [mbind result_bind]. rewrite Hset. cbn [mbind result_bind].
  unfold Frame.getitem. cbn [columns rows]. rewrite Hloc.
  cbn [mbind result_bind]. rewrite positive_mask.
  unfold Frame.getitem_mask. cbn [columns rows].
  now rewrite select_map_filter.
Qed.

Lemma filter_gross_no_column (L : Library) (df : DataFrame string) :
  Frame.get_loc "Gross Sales" (columns df) = None ->
  _filter_gross_sales_numeric_positive L df = Raise (KeyError "Gross Sales").
Proof.
  intros Hloc. unfold _filter_gross_sales_numeric_positive, Frame.getitem.
  now rewrite Hloc.
Qed.

Lemma filter_length_le {A} (p : A -> bool) (l : list A) :
  length (List.filter p l) <= length l.
Proof. induction l as [|a l IH]; simpl; [lia|]. destruct (p a); simpl; lia. Qed.

Lemma filter_all {A} (p : A -> bool) (l : list A) :
  (forall a, In a l -> p a = true) -> List.filter p l = l.
Proof.
  induction l as [|a l IH]; intros H; [reflexivity|].
  simpl. rewrite (H a) by now left. f_equal. apply IH. intros b Hb. apply H. now right.
Qed.

Lemma positive_not_missing (i : nat) (r : list cell) :
  positive_at i r = true -> forallb isna r = false.
Proof.
  unfold positive_at. destruct (r !! i) as [c|] eqn:E; [|discriminate].
  destruct c; try discriminate. intros _.
  apply list_elem_of_lookup_2 in E. apply list_elem_of_In in E.
  destruct (forallb isna r) eqn:F; [|reflexivity].
  rewrite forallb_forall in F. specialize (F _ E). discriminate.
Qed.

(** X2.  On a frame with no Gross Sales column the filter raises the
    key error of the first [df["Gross Sales"]]. *)
Theorem filter_gross_sales_key_error (L : Library) (df : DataFrame string) :
  ~ In "Gross Sales" (columns df) ->
  _filter_gross_sales_numeric_positive L df = Raise (KeyError "Gross Sales").
Proof.
  intros Hnot. apply filter_gross_no_column.
  destruct (Frame.get_loc "Gross Sales" (columns df)) as [i|] eqn:E; [|reflexivity].
  exfalso. apply Hnot. apply get_loc_lookup in E.
  apply list_elem_of_lookup_2 in E. now apply list_elem_of_In.
Qed.

Lemma filter_gross_sales_key_error_witness :
  _filter_gross_sales_numeric_positive Sample.library ledger_without_gross
  = Raise (KeyError "Gross Sales").
Proof.
  apply (filter_gross_sales_key_error Sample.library ledger_without_gross).
  cbn. intros [H|[H|[]]]; discriminate.
Defined.



(** The rows kept of the sample frame. *)
Example filter_ledger :
  _filter_gross_sales_numeric_positive Sample.library ledger
  = Ok {| columns := ["Store Code"; "Gross Sales"; "Net Sales"];
          rows := [ [Str "S01"; Num (Fin (2401 # 2)); Str "x"];
                    [Str "S04"; Num (Fin (7 # 1)); Str "1,0"] ] |}.
Proof. reflexivity. Qed.

(** X4.  A frame returned by the filter has no row whose cells are all
    missing, so the [dropna(how="all")] that follows it removes
    nothing. *)
Theorem dropna_after_filter (L : Library) (df out : DataFrame string) :
  _filter_gross_sales_numeric_positive L df = Ok out ->
  Frame.dropna_all out = out.
Proof.
  intros H. destruct (Frame.get_loc "Gross Sales" (columns df)) as [i|] eqn:E.
  - rewrite (filter_gross_rows L df i E) in H. injection H as <-.
    unfold Frame.dropna_all. cbn [columns rows]. f_equal.
    apply filter_all. intros r Hr. apply filter_In in Hr.
    destruct Hr as [_ Hr]. now rewrite (positive_not_missing i r Hr).
  - rewrite (filter_gross_no_column L df E) in H. discriminate.
Qed.

Lemma dropna_after_filter_witness :
  Frame.dropna_all
    {| columns := ["Store Code"; "Gross Sales"; "Net Sales"];
       rows := [ [Str "S01"; Num (Fin (2401 # 2)); Str "x"];
                 [Str "S04"; Num (Fin (7 # 1)); Str "1,0"] ] |}
  = {| columns := ["Store Code"; "Gross Sales"; "Net Sales"];
       rows := [ [Str "S01"; Num (Fin (2401 # 2)); Str "x"];
                 [Str "S04"; Num (Fin (7 # 1)); Str "1,0"] ] |}.
Proof.
  apply (dropna_after_filter Sample.library ledger). reflexivity.
Defined.

(** ** [_coerce_numeric] on any frame *)

Lemma get_loc_of_lookup (cols : list string) (j : nat) (c : string) :
  NoDup cols -> cols !! j = Some c -> Frame.get_loc c cols = Some j.
Proof.
  intros Hnd. revert j. induction Hnd as [|k cols Hk _ IH]; intros j Hj.
  - destruct j; discriminate.
  - destruct j as [|j]; simpl in *.
    + injection Hj as ->. now rewrite String.eqb_refl.
    + destruct (String.eqb_spec k c) as [->|Hne].
      * exfalso. apply Hk. eapply list_elem_of_lookup_2, Hj.
      * now rewrite (IH j Hj).
Qed.

Lemma get_loc_none_set_mem (c : string) (cols : list string) :
  Frame.get_loc c cols = None -> set_mem c cols = false.
Proof.
  intros H. destruct (set_mem c cols) eqn:E; [|reflexivity].
  destruct (set_mem_get_loc _ _ E) as [i Hi]. congruence.
Qed.

Lemma positions_filter (cols names : list string) :
  positions cols (List.filter (fun c => set_mem c cols) names) = positions cols names.
Proof.
  unfold positions. induction names as [|n names IH]; [reflexivity|].
  cbn [List.filter omap list_omap].
  destruct (Frame.get_loc n cols) as [i|] eqn:E.
  - rewrite (get_loc_set_mem _ _ _ E). cbn [omap list_omap]. rewrite E.
    f_equal. exact IH.
  - rewrite (get_loc_none_set_mem _ _ E). exact IH.
Qed.

Lemma positions_nodup (cols names : list string) :
  NoDup names -> NoDup (positions cols names).
Proof.
  unfold positions. induction 1 as [|n names Hn _ IH]; [constructor|].
  cbn [omap list_omap]. destruct (Frame.get_loc n cols) as [i|] eqn:E; [|exact IH].
  apply NoDup_cons_2; [|exact IH].
  intros Hin. apply list_elem_of_omap in Hin. destruct Hin as (m & Hm & Hmi).
  apply get_loc_lookup in E. apply get_loc_lookup in Hmi.
  rewrite E in Hmi. injection Hmi as ->. contradiction.
Qed.

Lemma positions_mem (cols names : list string) (j : nat) (c : string) :
  NoDup cols -> cols !! j = Some c ->
  existsb (Nat.eqb j) (positions cols names) = set_mem c names.
Proof.
  intros Hnd Hj. unfold positions, set_mem.
  induction names as [|n names IH]; [reflexivity|].
  cbn [omap list_omap existsb].
  destruct (Frame.get_loc n cols) as [i|] eqn:E.
  - cbn [existsb]. rewrite IH. f_equal.
    destruct (Nat.eqb_spec j i) as [->|Hne]; destruct (String.eqb_spec c n) as [->|Hcn];
      try reflexivity.
    + apply get_loc_lookup in E. congruence.
    + rewrite (get_loc_of_lookup cols j n Hnd Hj) in E. congruence.
  - rewrite IH. destruct (String.eqb_spec c n) as [->|Hcn]; [|reflexivity].
    rewrite (get_loc_of_lookup cols j n Hnd Hj) in E. discriminate.
Qed.

(** X7.  On a frame whose column names are distinct, and for distinct
    names, [_coerce_numeric] returns the same columns and the same
    number of rows, of the same width: a cell under one of the names is
    replaced by its coercion, a cell under any other column is left as
    it is, and a name that is no column of the frame is passed over. *)
Theorem coerce_numeric_columns (L : Library) (df : DataFrame string) (names : list string) :
  NoDup (columns df) ->
  NoDup names ->
  exists out,
    _coerce_numeric L df names = Ok out
    /\ columns out = columns df
    /\ length (rows out) = length (rows df)
    /\ forall k r, rows df !! k = Some r ->
         exists r', rows out !! k = Some r'
                    /\ length r' = length r
                    /\ forall j c, columns df !! j = Some c ->
                         r' !! j = if set_mem c names
                                   then coerce_cell L <$> r !! j
                                   else r !! j.
Proof.
  intros Hcols Hnames.
  rewrite coerce_numeric_skip, coerce_numeric_rows.
  2:{ apply List.Forall_forall. intros c Hc. apply filter_In in Hc.
      apply set_mem_get_loc, Hc. }
  rewrite positions_filter.
  eexists. split; [reflexivity|]. cbn [columns rows].
  split; [reflexivity|]. split; [apply length_map|].
  intros k r Hk. rewrite list_lookup_fmap, Hk. eexists. split; [reflexivity|].
  split; [apply alter_all_length|].
  intros j c Hj.
  rewrite alter_all_lookup by now apply positions_nodup.
  now rewrite (positions_mem _ names j c Hcols Hj).
Qed.

Lemma coerce_numeric_columns_witness :
  exists out,
    _coerce_numeric Sample.library ledger ["Net Sales"; "Quantity"; "Gross Sales"] = Ok out
    /\ columns out = columns ledger
    /\ length (rows out) = length (rows ledger)
    /\ forall k r, rows ledger !! k = Some r ->
         exists r', rows out !! k = Some r'
                    /\ length r' = length r
                    /\ forall j c, columns ledger !! j = Some c ->
                         r' !! j = if set_mem c ["Net Sales"; "Quantity"; "Gross Sales"]
                                   then coerce_cell Sample.library <$> r !! j
                                   else r !! j.
Proof.
  apply (coerce_numeric_columns Sample.library ledger ["Net Sales"; "Quantity"; "Gross Sales"]).
  - repeat (apply NoDup_cons_2;
            [rewrite ?elem_of_cons, elem_of_nil; intros H;
             repeat (destruct H as [H|H]; try discriminate); exact H|]).
    apply NoDup_nil_2.
  - repeat (apply NoDup_cons_2;
            [rewrite ?elem_of_cons, elem_of_nil; intros H;
             repeat (destruct H as [H|H]; try discriminate); exact H|]).
    apply NoDup_nil_2.
Defined.

(** The sample frame coerced: ["Quantity"] is no column and is passed
    over, ["Store Code"] is not named and is left alone. *)
Example coerce_ledger :
  _coerce_numeric Sample.library ledger ["Net Sales"; "Quantity"; "Gross Sales"]
  = Ok {| columns := ["Store Code"; "Gross Sales"; "Net Sales"];
          rows := [ [Str "S01"; Num (Fin (2401 # 2)); NaN];
                    [Str "S02"; NaN; Num (Fin (3 # 1))];
                    [Str "S03"; Num (Fin (-4 # 1)); NaN];
                    [Str "S04"; Num (Fin (7 # 1)); Num (Fin (10 # 1))] ] |}.
Proof. reflexivity. Qed.

(** ** The whole script *)

Lemma coerce_cell_typed (L : Library) (c : cell) :
  coerce_cell L c = NaN \/ exists x, coerce_cell L c = Num x.
Proof. unfold coerce_cell. destruct (Floatify.floatify _); eauto. Qed.

(** A missing cell coerces to the missing number, whichever marker it
    holds. *)
Lemma coerce_cell_missing (L : Library) (c : cell) :
  isna c = true -> coerce_cell L c = NaN.
Proof. destruct c; try discriminate; reflexivity. Qed.

Lemma clean_cell_text (L : Library) (c : cell) :
  clean_cell L c = NA
  \/ exists s, clean_cell L c = Str s
               /\ s <> "" /\ s <> "nan" /\ s <> "None" /\ PyText.strip s = s.
Proof.
  unfold clean_cell. set (s := PyText.strip (cell_str L c)).
  destruct (existsb (String.eqb s) [""; "nan"; "None"]) eqn:E; [now left|].
  right. exists s. split; [reflexivity|].
  cbn [existsb] in E. rewrite !orb_false_iff in E.
  destruct E as (E1 & E2 & E3 & _).
  apply String.eqb_neq in E1, E2, E3.
  repeat (split; [assumption|]). apply strip_strip.
Qed.

Lemma gross_ok_not_missing (r : list cell) :
  gross_ok r = true -> all_missing r = false.
Proof.
  intros H. apply gross_ok_inv in H. destruct H as (x & Hx & Hpos).
  apply (positive_not_missing 4). unfold positive_at. now rewrite Hx.
Qed.

Lemma all_missing_not_gross (L : Library) (f : cell -> cell) (y : list cell) :
  all_missing y = true ->
  gross_ok (typed_row L (alter f 3 y)) = false.
Proof.
  intros Hm. unfold gross_ok. rewrite typed_row_lookup. cbn.
  rewrite list_lookup_alter_ne by lia.
  destruct (y !! 4) as [c|] eqn:E; [|reflexivity]. cbn.
  unfold all_missing in Hm. rewrite forallb_forall in Hm.
  apply list_elem_of_lookup_2, list_elem_of_In in E.
  rewrite (coerce_cell_missing L c (Hm c E)). reflexivity.
Qed.

Lemma filter_map_filter {A B} (p : A -> bool) (q : B -> bool) (f : A -> B) (l : list A) :
  (forall a, p a = false -> q (f a) = false) ->
  List.filter q (map f (List.filter p l)) = List.filter q (map f l).
Proof.
  intros H. induction l as [|a l IH]; [reflexivity|].
  cbn [List.filter map]. destruct (p a) eqn:E.
  - cbn [List.filter map]. now rewrite IH.
  - rewrite (H a E). exact IH.
Qed.

(** The two empty-row sweeps remove nothing that the filter on Gross
    Sales keeps. *)
Lemma rows_after_before (L : Library) (rs : list (list cell)) :
  rows_after L (rows_before L rs)
  = List.filter gross_ok (map (row_of L (date_column (cleaned_rows L rs))) rs).
Proof.
  unfold rows_after, rows_before.
  rewrite (filter_all (fun r => negb (all_missing r))).
  2:{ intros r Hr. apply filter_In in Hr. destruct Hr as [_ Hr].
      now rewrite (gross_ok_not_missing r Hr). }
  rewrite map_map.
  set (col := date_column (cleaned_rows L rs)).
  unfold cleaned_rows.
  rewrite (filter_map_filter (fun r => negb (all_missing r)) gross_ok
             (fun y => typed_row L (alter (parse_date_cell L col) 3 y))).
  2:{ intros y Hy. apply negb_false_iff in Hy. now apply all_missing_not_gross. }
  rewrite map_map. reflexivity.
Qed.

(** X10.  On a sheet of sixteen columns or more the result is, in the
    order of the sheet, the typed image of exactly the rows whose Gross
    Sales is a number greater than zero once typed, the Date of a row
    being parsed as an element of the Date column of the sheet (the
    cleaned Date cells of the rows that are not blank): the two
    [dropna(how="all")] never remove a row that the filter would keep,
    and the result never has more rows than the sheet. *)
Theorem normalize_map_filter (L : Library) (df : DataFrame colkey) :
  16 <= length (columns df) ->
  exists out,
    normalize L df = Ok out
    /\ rows out
       = List.filter gross_ok
           (map (row_of L (date_column (cleaned_rows L (rows df)))) (rows df))
    /\ length (rows out) <= length (rows df)
    /\ (forall r, In r (rows out) <->
          exists raw, In raw (rows df)
                      /\ r = row_of L (date_column (cleaned_rows L (rows df))) raw
                      /\ gross_ok r = true).
Proof.
  intros Hn. eexists. split; [apply normalize_rows, Hn|]. cbn [rows].
  rewrite rows_after_before. split; [reflexivity|]. split.
  - etransitivity; [apply filter_length_le|]. now rewrite length_map.
  - intros r. rewrite filter_In, in_map_iff. split.
    + intros [(raw & <- & Hraw) Hg]. eauto.
    + intros (raw & Hraw & -> & Hg). eauto.
Qed.

Lemma normalize_map_filter_witness :
  exists out,
    normalize Sample.library Sample.sheet = Ok out
    /\ rows out
       = List.filter gross_ok
           (map (row_of Sample.library
                   (date_column (cleaned_rows Sample.library (rows Sample.sheet))))
              (rows Sample.sheet))
    /\ length (rows out) <= length (rows Sample.sheet)
    /\ (forall r, In r (rows out) <->
          exists raw, In raw (rows Sample.sheet)
                      /\ r = row_of Sample.library
                               (date_column (cleaned_rows Sample.library (rows Sample.sheet)))
                               raw
                      /\ gross_ok r = true).
Proof.
  apply (normalize_map_filter Sample.library Sample.sheet). vm_compute. lia.
Defined.

(** The result for a sheet whose first date can only be read month
    first: the Date of the second row follows the first. *)
Example normalize_month_first_sheet :
  normalize Sample.library
    {| columns := Sample.header 16;
       rows := [ take 16 (Sample.data_row (Str "A") (Str "12/25/2024") (Str "1"));
                 take 16 (Sample.data_row (Str "B") (Str "05/03/2024") (Str "2")) ] |}
  = Ok {| columns := FINAL_COLS;
          rows := [ Sample.out_row (Str "A")
                      (Date {| ts_year := 2024; ts_month := 12; ts_day := 25; ts_nanos := 0 |})
                      (Num (Fin (1 # 1)));
                    Sample.out_row (Str "B")
                      (Date {| ts_year := 2024; ts_month := 5; ts_day := 3; ts_nanos := 0 |})
                      (Num (Fin (2 # 1))) ] |}.
Proof. vm_compute. reflexivity. Qed.

Lemma rows_before_blank (L : Library) (rs1 rs2 : list (list cell)) (blank : list cell) :
  Forall (fun c => clean_cell L c = NA) (take 16 blank) ->
  rows_before L (rs1 ++ blank :: rs2) = rows_before L (rs1 ++ rs2).
Proof.
  intros Hb.
  assert (Hm : all_missing (map (clean_cell L) (take 16 blank)) = true).
  { unfold all_missing. apply forallb_forall. intros c Hc.
    apply in_map_iff in Hc. destruct Hc as (c0 & <- & Hc0).
    rewrite List.Forall_forall in Hb. now rewrite (Hb c0 Hc0). }
  assert (H : cleaned_rows L (rs1 ++ blank :: rs2) = cleaned_rows L (rs1 ++ rs2)).
  { unfold cleaned_rows. rewrite !map_app, !List.filter_app.
    cbn [map List.filter]. now rewrite Hm. }
  unfold rows_before. now rewrite H.
Qed.

(** X11.  A row whose first sixteen cells are all blank (they clean to
    the missing marker, as an empty cell or a text of spaces does) has
    no effect: the script returns, or raises, the same with the row as
    without it. *)
Theorem blank_row_ignored (L : Library) (cols : list colkey)
    (rs1 rs2 : list (list cell)) (blank : list cell) :
  Forall (fun c => clean_cell L c = NA) (take 16 blank) ->
  normalize L {| columns := cols; rows := rs1 ++ blank :: rs2 |}
  = normalize L {| columns := cols; rows := rs1 ++ rs2 |}.
Proof.
  intros Hb. destruct (le_lt_dec 16 (length cols)) as [Hn|Hn].
  - rewrite !normalize_rows by exact Hn. cbn [rows].
    now rewrite rows_before_blank.
  - rewrite !normalize_short by exact Hn. reflexivity.
Qed.

Lemma blank_row_ignored_witness :
  normalize Sample.library
    {| columns := Sample.header 18;
       rows := [Sample.data_row (Str "SHOP-001") (Str "05/03/2024") (Str "15")]
                 ++ (repeat NaN 10 ++ repeat (Str "  ") 8)
                 :: [Sample.data_row NaN NaN (Other "7.25")] |}
  = normalize Sample.library
      {| columns := Sample.header 18;
         rows := [Sample.data_row (Str "SHOP-001") (Str "05/03/2024") (Str "15")]
                   ++ [Sample.data_row NaN NaN (Other "7.25")] |}.
Proof.
  apply (blank_row_ignored Sample.library).
  repeat (apply List.Forall_cons; [reflexivity|]). apply List.Forall_nil.
Defined.

(** X13.  The only exception the script raises between the read and the
    preview is the length mismatch of a sheet with fewer than sixteen
    columns: it never raises a key error and never fails on a cell. *)
Theorem normalize_raises_only_length_mismatch (L : Library) (df : DataFrame colkey)
    (e : exn) :
  normalize L df = Raise e ->
  length (columns df) < 16
  /\ e = ValueError_LengthMismatch (length (columns df)) 16.
Proof.
  intros H. destruct (le_lt_dec 16 (length (columns df))) as [Hn|Hn].
  - rewrite normalize_rows in H by exact Hn. discriminate.
  - rewrite normalize_short in H by exact Hn. injection H as <-. auto.
Qed.

Lemma normalize_raises_only_length_mismatch_witness :
  length (columns Sample.short_sheet) < 16
  /\ ValueError_LengthMismatch 10 16
     = ValueError_LengthMismatch (length (columns Sample.short_sheet)) 16.
Proof.
  apply (normalize_raises_only_length_mismatch Sample.library Sample.short_sheet).
  vm_compute. reflexivity.
Defined.

(** X9.  In every row of the result a numeric field holds a number or
    the missing number, the Date a timestamp or the missing timestamp,
    and each of Row No., Store Code, Terminal and Unnamed the missing
    marker or a trimmed text that is neither empty nor ["nan"] nor
    ["None"]. *)
Theorem output_typed (L : Library) (df : DataFrame colkey)
    (out : DataFrame string) (r : list cell) :
  normalize L df = Ok out ->
  In r (rows out) ->
  (forall c v, set_mem c NUMERIC_COLS = true -> field out r c = Some v ->
     v = NaN \/ exists x, v = Num x)
  /\ (forall v, field out r "Date" = Some v -> v = NaT \/ exists t, v = Date t)
  /\ (forall c v, In c ["Row No."; "Store Code"; "Terminal"; "Unnamed"] ->
        field out r c = Some v ->
        v = NA \/ exists s, v = Str s /\ s <> "" /\ s <> "nan" /\ s <> "None"
                            /\ PyText.strip s = s).
Proof.
  intros Hn Hr.
  destruct (output_row_origin L df out r Hn Hr)
    as (raw & mid & r0 & _ & _ & _ & _ & Hco & _ & Hr0 & -> & _).
  split; [|split].
  - intros c v Hc. unfold set_mem in Hc. apply existsb_exists in Hc.
    destruct Hc as (n & Hin & Hcn). apply String.eqb_eq in Hcn. subst n.
    cbn [NUMERIC_COLS In] in Hin.
    repeat (destruct Hin as [<-|Hin];
            [erewrite field_at by (first [eassumption | reflexivity]);
             rewrite typed_row_lookup; cbn;
             destruct (r0 !! _) as [c0|]; cbn; [|discriminate];
             intros [= <-]; apply coerce_cell_typed|]).
    destruct Hin.
  - intros v. erewrite field_at by (first [eassumption | reflexivity]).
    rewrite typed_row_lookup. cbn. subst r0. rewrite list_lookup_alter_eq.
    destruct (map _ _ !! 3) as [c0|]; cbn; [|discriminate].
    intros [= <-]. apply parse_date_cell_typed.
  - intros c v Hc. cbn [In] in Hc.
    destruct Hc as [<-|[<-|[<-|[<-|[]]]]];
      (erewrite field_at by (first [eassumption | reflexivity]);
       rewrite typed_row_lookup; cbn; subst r0;
       rewrite list_lookup_alter_ne by lia; rewrite list_lookup_fmap;
       destruct (take 16 raw !! _) as [c0|]; cbn; [|discriminate];
       intros [= <-]; apply clean_cell_text).
Qed.

Lemma output_typed_witness :
  (forall c v, set_mem c NUMERIC_COLS = true ->
     field Sample.output (Sample.out_row (Str "AB") NaT (Num (Fin (2401 # 2)))) c = Some v ->
     v = NaN \/ exists x, v = Num x)
  /\ (forall v,
        field Sample.output (Sample.out_row (Str "AB") NaT (Num (Fin (2401 # 2)))) "Date"
        = Some v ->
        v = NaT \/ exists t, v = Date t)
  /\ (forall c v, In c ["Row No."; "Store Code"; "Terminal"; "Unnamed"] ->
        field Sample.output (Sample.out_row (Str "AB") NaT (Num (Fin (2401 # 2)))) c
        = Some v ->
        v = NA \/ exists s, v = Str s /\ s <> "" /\ s <> "nan" /\ s <> "None"
                            /\ PyText.strip s = s).
Proof.
  apply (output_typed Sample.library Sample.sheet).
  - vm_compute. reflexivity.
  - vm_compute. right. left. reflexivity.
Defined.

(** X14.  The coercion of a column keeps what is missing missing: a
    cell that holds any of the missing markers becomes the missing
    number, never a number. *)
Theorem coercion_keeps_missing (L : Library) (series : list cell) :
  exists out,
    pd.to_numeric ErrorsCoerce
      (Series.str_replace ","%char "" (Series.astype_str L series)) = Ok out
    /\ length out = length series
    /\ forall k c, series !! k = Some c -> isna c = true ->
         out !! k = Some NaN /\ isna NaN = true.
Proof.
  exists (map (coerce_cell L) series).
  split; [apply to_numeric_coerce|]. split; [apply length_map|].
  intros k c Hk Hc. rewrite list_lookup_fmap, Hk. cbn.
  now rewrite (coerce_cell_missing L c Hc).
Qed.

(** * The second coercion of Gross Sales

    [_filter_gross_sales_numeric_positive] prints the numbers of the
    column and reads them back: [to_numeric] of [astype(str)].  The
    text of a number has no comma and the reader gives the number
    back, so the second coercion changes nothing. *)

Local Open Scope Z_scope.































(** ** Reading a printed text *)





(** ** The value of a printed text *)




(** ** A printed number is read back *)









(** The texts of some numbers, and a text with commas coerced twice. *)
Example number_texts :
  map (fun s => match Floatify.floatify s with
                | Some x => (Repr.number false x, Repr.number true x)
                | None => ("", "")
                end)
    ["1200.50"; "15"; "-0.5"; "0.0001"; "0.00001"; "1e16"; "1e15"; "12e-100";
     "-Infinity"]%string
  = [ ("1200.5", "1200.5"); ("15.0", "15"); ("-0.5", "-0.5"); ("0.0001", "0.0001");
      ("1e-05", "1e-05"); ("1e+16", "10000000000000000");
      ("1000000000000000.0", "1000000000000000"); ("1.2e-99", "1.2e-99");
      ("-inf", "-inf") ]%string.
Proof. vm_compute. reflexivity. Qed.

Example coercion_twice_sample :
  coerce_cell Sample.library (Str "1,200.50") = Num (Fin (2401 # 2))
  /\ cell_str Sample.library (Num (Fin (2401 # 2))) = "1200.5"%string
  /\ coerce_cell Sample.library (Num (Fin (2401 # 2))) = Num (Fin (2401 # 2)).
Proof. repeat split. Qed.
